(** * RemindMe: a shallow embedding of [src/main.tsx]

    The application has three entry points that the host platform calls:
    the submit handler of the time input form (stage 1), the submit handler
    of the confirmation form (stage 2) and the [onRun] body of the
    scheduler job.  Stage 1 and stage 2 share data through a Redis hash
    ([RemindMeFormDataFlow]).

    Every handler is an [async] function whose awaits run in program order,
    so a handler is embedded as a state transformer over a [World] that
    holds the Redis store, the Reddit directory, the clock and the trace of
    the calls made to the host. *)

From Stdlib Require Import ZArith Ascii String Decimal DecimalString DecimalZ.
From stdpp Require Import gmap strings list fin_maps.

Local Open Scope Z_scope.

(** ** JavaScript values the program handles *)

(** The [number]s of this program are epoch-millisecond timestamps: integral
    values, or [NaN] (the time value of an invalid [Date] and the result of
    [Number] on text that is no numeric literal). *)
Inductive number :=
| Num (z : Z)
| NaN.

#[global] Instance number_eq_dec : EqDecision number.
Proof. solve_decision. Defined.

(** [String(n)] on an integral number: its decimal digits, with a leading
    ["-"] when negative; [String(NaN)] is ["NaN"]. *)
Definition ToString (n : number) : string :=
  match n with
  | Num z => NilZero.string_of_int (Z.to_int z)
  | NaN => "NaN"
  end.

(** [Number(s)] on the signed decimal integer literals: the strings that
    [ToString] produces on integral numbers, with an optional ["+"].  The
    empty string converts to [0] and ["NaN"] to [NaN].  The rest of the
    numeric grammar of the language (fractions, exponents, other radixes,
    surrounding white space, [Infinity]) is outside this embedding: such
    text is mapped to [NaN] as well.  The application only ever stores the
    result of [ToString]. *)
Definition ToNumber (s : string) : number :=
  match s with
  | EmptyString => Num 0
  | String a s' =>
      if Ascii.eqb a "-"%char then
        match NilZero.uint_of_string s' with
        | Some d => Num (- Z.of_uint d)
        | None => NaN
        end
      else if Ascii.eqb a "+"%char then
        match NilZero.uint_of_string s' with
        | Some d => Num (Z.of_uint d)
        | None => NaN
        end
      else
        match NilZero.uint_of_string s with
        | Some d => Num (Z.of_uint d)
        | None => NaN
        end
  end.

(** [!x] for [x : string | undefined]: the empty string and [undefined] are
    falsy. *)
Definition truthy (x : option string) : bool :=
  match x with
  | Some s => negb (String.eqb s "")
  | None => false
  end.

(** ** [Date] *)

(** A [Date] object is its time value. *)
Record Date := mkDate { getTime : number }.

#[global] Instance Date_eq_dec : EqDecision Date.
Proof. solve_decision. Defined.

Definition maxTimeValue : Z := 8640000000000000.

(** [new Date(v)]: the time value is clipped, a value out of range or [NaN]
    gives the invalid date. *)
Definition new_Date (v : number) : Date :=
  match v with
  | Num z => if Z.abs z <=? maxTimeValue then mkDate (Num z) else mkDate NaN
  | NaN => mkDate NaN
  end.

(** [a <= b] and [a < b] on numbers: false as soon as one side is [NaN]. *)
Definition number_le (a b : number) : bool :=
  match a, b with
  | Num x, Num y => x <=? y
  | _, _ => false
  end.

Definition number_lt (a b : number) : bool :=
  match a, b with
  | Num x, Num y => x <? y
  | _, _ => false
  end.

(** [d1 <= d2] on dates compares the time values. *)
Definition Date_le (d1 d2 : Date) : bool :=
  number_le (getTime d1) (getTime d2).

Definition dec (z : Z) : string := NilZero.string_of_int (Z.to_int z).

Definition pad2 (z : Z) : string :=
  if z <? 10 then "0" +:+ dec z else dec z.

Definition pad4 (z : Z) : string :=
  if z <? 10 then "000" +:+ dec z
  else if z <? 100 then "00" +:+ dec z
  else if z <? 1000 then "0" +:+ dec z
  else dec z.

Definition msPerDay : Z := 86400000.

Definition weekDayName (w : Z) : string :=
  nth (Z.to_nat w) ["Sun"; "Mon"; "Tue"; "Wed"; "Thu"; "Fri"; "Sat"] "".

Definition monthName (m : Z) : string :=
  nth (Z.to_nat (m - 1))
    ["Jan"; "Feb"; "Mar"; "Apr"; "May"; "Jun";
     "Jul"; "Aug"; "Sep"; "Oct"; "Nov"; "Dec"] "".

(** Year, month (1 to 12) and day of the month of a day number counted from
    1970-01-01, in the proleptic Gregorian calendar. *)
Definition civilFromDays (days : Z) : Z * Z * Z :=
  let z := days + 719468 in
  let era := z / 146097 in
  let doe := z - era * 146097 in
  let yoe := (doe - doe / 1460 + doe / 36524 - doe / 146096) / 365 in
  let doy := doe - (365 * yoe + yoe / 4 - yoe / 100) in
  let mp := (5 * doy + 2) / 153 in
  let d := doy - (153 * mp + 2) / 5 + 1 in
  let m := if mp <? 10 then mp + 3 else mp - 9 in
  let y := yoe + era * 400 + (if m <=? 2 then 1 else 0) in
  (y, m, d).

(** [d.toUTCString()]: ["Www, DD Mmm YYYY HH:mm:ss GMT"], or
    ["Invalid Date"]. *)
Definition toUTCString (d : Date) : string :=
  match getTime d with
  | NaN => "Invalid Date"
  | Num tv =>
      let day := tv / msPerDay in
      let ms := tv mod msPerDay in
      let '(y, m, dd) := civilFromDays day in
      weekDayName ((day + 4) mod 7) +:+ ", " +:+ pad2 dd +:+ " " +:+
      monthName m +:+ " " +:+ (if y <? 0 then "-" else "") +:+
      pad4 (Z.abs y) +:+ " " +:+
      pad2 (ms / 3600000) +:+ ":" +:+ pad2 (ms / 60000 mod 60) +:+ ":" +:+
      pad2 (ms / 1000 mod 60) +:+ " GMT"
  end.

(** ** Data of the application *)

Definition APP_NAME : string := "RemindMe".
Definition REMINDER_JOB_NAME : string := "reminder".

Record ReminderJobData := mkReminderJobData {
  data_userId : string;
  data_postId : string;
  initTimestamp : number
}.

Record RemindMeFormData := mkRemindMeFormData {
  reminderTimestamp : number
}.

(** The part of [Devvit.Context] that identifies the interaction: both
    identifiers are optional in the host's type. *)
Record Context := mkContext {
  userId : option string;
  postId : option string
}.

Record User := mkUser { username : string }.
Record Post := mkPost { title : string; permalink : string }.

Record ScheduledJob := mkScheduledJob {
  name : string;
  runAt : Date;
  data : ReminderJobData
}.

Inductive FormKey := TimeInputForm | TimeConfirmationForm.

(** ** The host: Redis, Reddit, scheduler, UI and clock *)

(** The hashes of the Redis store and the time to live, in seconds, last
    set on a key.  The eviction of a key whose time to live has run out is
    the host's and is not part of this embedding. *)
Record Redis := mkRedis {
  hashes : gmap string (gmap string string);
  expiry : gmap string Z
}.

(** One entry per call made to the host, in program order. *)
Inductive Effect :=
| RedisHSet (key : string) (fieldValues : gmap string string)
| RedisExpire (key : string) (seconds : Z)
| RedisHMGet (key : string) (fields : list string)
| RedisDel (key : string)
| GetUserById (id : string)
| GetPostById (id : string)
| SendPrivateMessage (to subject text : string)
| ShowToast (text : string)
| ShowForm (form : FormKey) (formData : option RemindMeFormData)
| RunJob (job : ScheduledJob).

Record World := mkWorld {
  redis : Redis;
  users : gmap string User;
  posts : gmap string Post;
  now : Z;
  trace : list Effect
}.

(** An [async] function: it reads and updates the world and returns. *)
Definition Task (A : Type) : Type := World -> A * World.

#[global] Instance Task_ret : MRet Task := fun A x w => (x, w).
#[global] Instance Task_bind : MBind Task :=
  fun A B f m w => let '(a, w') := m w in f a w'.

Definition emit (e : Effect) (w : World) : World :=
  mkWorld (redis w) (users w) (posts w) (now w) (trace w ++ [e]).

Definition set_redis (r : Redis) (w : World) : World :=
  mkWorld r (users w) (posts w) (now w) (trace w).

(** [HSET key field value ...]: the given fields are written over the hash
    stored at [key], which is created when it does not exist. *)
Definition hSet (key : string) (fieldValues : gmap string string) : Task unit :=
  fun w =>
    let r := redis w in
    let h := fieldValues ∪ default ∅ (hashes r !! key) in
    (tt, set_redis (mkRedis (<[key := h]> (hashes r)) (expiry r))
           (emit (RedisHSet key fieldValues) w)).

(** [EXPIRE key seconds]: sets the time to live of an existing key. *)
Definition expire (key : string) (seconds : Z) : Task unit :=
  fun w =>
    let r := redis w in
    let r' := match hashes r !! key with
              | Some _ => mkRedis (hashes r) (<[key := seconds]> (expiry r))
              | None => r
              end in
    (tt, set_redis r' (emit (RedisExpire key seconds) w)).

(** [HMGET key field ...]: one value per requested field, absent when the
    key or the field does not exist. *)
Definition hMGet (key : string) (fields : list string)
  : Task (list (option string)) :=
  fun w =>
    (map (fun f => hashes (redis w) !! key ≫= fun h => h !! f) fields,
     emit (RedisHMGet key fields) w).

(** [DEL key]. *)
Definition del (key : string) : Task unit :=
  fun w =>
    let r := redis w in
    (tt, set_redis (mkRedis (delete key (hashes r)) (delete key (expiry r)))
           (emit (RedisDel key) w)).

Definition getUserById (id : string) : Task (option User) :=
  fun w => (users w !! id, emit (GetUserById id) w).

Definition getPostById (id : string) : Task (option Post) :=
  fun w => (posts w !! id, emit (GetPostById id) w).

Definition sendPrivateMessage (to subject text : string) : Task unit :=
  fun w => (tt, emit (SendPrivateMessage to subject text) w).

Definition showToast (text : string) : Task unit :=
  fun w => (tt, emit (ShowToast text) w).

Definition showForm (form : FormKey) (formData : option RemindMeFormData)
  : Task unit :=
  fun w => (tt, emit (ShowForm form formData) w).

Definition runJob (job : ScheduledJob) : Task unit :=
  fun w => (tt, emit (RunJob job) w).

(** [new Date()]: the clock of the host. *)
Definition Date_now : Task Date :=
  fun w => (mkDate (Num (now w)), w).

(** Modelled from the spec: the time parser, [chrono.parseDate] of the
    imported chrono-node library, whose code is not part of the repository.
    By the contract [parse(text, referenceNow) -> Timestamp | ParseFailure]
    it is a function of the text and of the reference instant and has no
    side effects; [None] is the parse failure ([null]). *)
Class Chrono := parseDate : string -> Date -> option Date.

(** [chrono.parseDate(text)] as the code calls it: only the text is passed,
    the reference instant is the clock at the time of the call. *)
Definition chrono_parseDate `{Chrono} (text : string) : Task (option Date) :=
  fun w => (parseDate text (mkDate (Num (now w))), w).

(** [!x] *)
Definition falsy (x : option string) : bool := negb (truthy x).

(** The text an optional string contributes to a template literal. *)
Definition str (x : option string) : string :=
  match x with
  | Some s => s
  | None => "undefined"
  end.

(** ** The scheduler job *)

Definition reminder_onRun (event_data : ReminderJobData) : Task unit :=
  let '(mkReminderJobData userId postId initTimestamp) := event_data in
  user ← getUserById userId;
  post ← getPostById postId;
  match user, post with
  | Some user, Some post =>
      let message :=
        "Hey! You asked me to remind you about [" +:+ title post +:+ "](" +:+
        permalink post +:+ "). You set this reminder on " +:+
        toUTCString (new_Date initTimestamp) +:+ "!" in
      sendPrivateMessage (username user)
        ("Reminder for '" +:+ title post +:+ "' - " +:+ APP_NAME)
        message
  | _, _ => mret tt
  end.

(** ** The handoff between the two forms *)

Module RemindMeFormDataFlow.

(** STEP 1 *)
Definition setDataAfterTimeInput (context : Context) (data : RemindMeFormData)
  : Task unit :=
  let '(mkContext userId postId) := context in
  if falsy userId || falsy postId then mret tt else
  let key := str userId +:+ "::" +:+ str postId in
  hSet key {[ "reminderTimestamp" := ToString (reminderTimestamp data) ]};;
  expire key (1 * 60 * 60).

(** STEP 2 *)
Definition retrieveDataAfterTimeConfirmation (context : Context)
  : Task (option RemindMeFormData) :=
  let '(mkContext userId postId) := context in
  if falsy userId || falsy postId then mret None else
  let key := str userId +:+ "::" +:+ str postId in
  values ← hMGet key ["reminderTimestamp"];
  let reminderTimestamp := head values ≫= id in
  del key;;
  if falsy reminderTimestamp then mret None
  else mret (Some (mkRemindMeFormData (ToNumber (str reminderTimestamp)))).

End RemindMeFormDataFlow.

(** ** The two forms and the menu item *)

Record FormSpec := mkFormSpec {
  form_title : string;
  form_description : string;
  acceptLabel : string;
  cancelLabel : string
}.

Definition timeConfirmationForm_render (d : RemindMeFormData) : FormSpec :=
  mkFormSpec "Is this correct?"
    ("I will remind you at " +:+ toUTCString (new_Date (reminderTimestamp d)))
    "Confirm" "Cancel".

Definition timeConfirmationForm_onSubmit (context : Context) : Task unit :=
  let '(mkContext userId postId) := context in
  if falsy postId then mret tt else
  if falsy userId then showToast "I can only remind you if you're logged in" else
  data ← RemindMeFormDataFlow.retrieveDataAfterTimeConfirmation context;
  match data with
  | None => showToast "An error occured while setting the reminder"
  | Some data =>
      let reminderDate := new_Date (reminderTimestamp data) in
      nowDate ← Date_now;
      if Date_le reminderDate nowDate then
        showToast "I can't remind you in the past!"
      else
        runJob (mkScheduledJob REMINDER_JOB_NAME reminderDate
                  (mkReminderJobData (str userId) (str postId) (getTime nowDate)));;
        showToast ("Gotcha! I'll send you a message about this post at " +:+
                   toUTCString reminderDate +:+ "!")
  end.

Definition timeInputForm_onSubmit `{Chrono} (timeString : string)
  (context : Context) : Task unit :=
  parsedDate ← chrono_parseDate timeString;
  match parsedDate with
  | None => showToast "I couldn't quite get that!"
  | Some parsedDate =>
      let data := mkRemindMeFormData (getTime parsedDate) in
      RemindMeFormDataFlow.setDataAfterTimeInput context data;;
      showForm TimeConfirmationForm (Some data)
  end.

Definition menuItem_onPress (context : Context) : Task unit :=
  showForm TimeInputForm None.

(** ** The application as a whole *)

(** What the host can call, with the data it passes. *)
Inductive Event :=
| PressMenu (context : Context)
| SubmitTimeInput (timeString : string) (context : Context)
| SubmitTimeConfirmation (context : Context)
| FireReminder (event_data : ReminderJobData).

Definition handle `{Chrono} (e : Event) : Task unit :=
  match e with
  | PressMenu context => menuItem_onPress context
  | SubmitTimeInput timeString context => timeInputForm_onSubmit timeString context
  | SubmitTimeConfirmation context => timeConfirmationForm_onSubmit context
  | FireReminder event_data => reminder_onRun event_data
  end.

Definition at_time (t : Z) (w : World) : World :=
  mkWorld (redis w) (users w) (posts w) t (trace w).

(** A history: each event with the instant at which the host delivers it. *)
Fixpoint run `{Chrono} (es : list (Z * Event)) (w : World) : World :=
  match es with
  | [] => w
  | (t, e) :: es' => run es' (handle e (at_time t w)).2
  end.

(** ** Observations used by the statements *)

(** The Redis key of the handoff record of an interaction. *)
Definition handoffKey (context : Context) : string :=
  str (userId context) +:+ "::" +:+ str (postId context).

(** Both identifiers are available. *)
Definition identified (context : Context) : bool :=
  truthy (userId context) && truthy (postId context).

(** The event works on the handoff record stored at [key]. *)
Definition touches (key : string) (e : Event) : Prop :=
  match e with
  | SubmitTimeInput _ context | SubmitTimeConfirmation context =>
      handoffKey context = key
  | _ => False
  end.

(** The event may write the handoff record stored at [key]. *)
Definition puts (key : string) (e : Event) : Prop :=
  match e with
  | SubmitTimeInput _ context => handoffKey context = key
  | _ => False
  end.

(** The private messages of a trace: recipient, subject and text. *)
Definition sent (tr : list Effect) : list (string * string * string) :=
  omap (fun e => match e with
                 | SendPrivateMessage to subject text => Some (to, subject, text)
                 | _ => None
                 end) tr.

(** The jobs registered in a trace. *)
Definition scheduled (tr : list Effect) : list ScheduledJob :=
  omap (fun e => match e with RunJob job => Some job | _ => None end) tr.

(** The calls of a trace that go to the Redis backend. *)
Definition isRedisCall (e : Effect) : bool :=
  match e with
  | RedisHSet _ _ | RedisExpire _ _ | RedisHMGet _ _ | RedisDel _ => true
  | _ => false
  end.

Definition redisCalls (tr : list Effect) : list Effect :=
  List.filter isRedisCall tr.

(** [sub] occurs in [s]. *)
Definition includes (s sub : string) : Prop :=
  exists before after, s = before +:+ sub +:+ after.

(** The time value of a date that is not the invalid date. *)
Definition isValidDate (d : Date) : bool :=
  match getTime d with
  | Num z => Z.abs z <=? maxTimeValue
  | NaN => false
  end.

(** Every handoff record holds the text of a valid time value. *)
Definition store_wf (r : Redis) : Prop :=
  forall key h s,
    hashes r !! key = Some h -> h !! "reminderTimestamp" = Some s ->
    exists z, Z.abs z <= maxTimeValue /\ s = ToString (Num z).

(** What the handoff record read back from the store decodes to. *)
Definition decode (x : option string) : option RemindMeFormData :=
  if falsy x then None else Some (mkRemindMeFormData (ToNumber (str x))).

(** A parser used to run the application on examples: it knows two
    phrases. *)
Definition sampleChrono : Chrono :=
  fun text ref =>
    match getTime ref with
    | Num t =>
        let offset :=
          if String.eqb text "in one hour" then Some 3600000
          else if String.eqb text "yesterday" then Some (-86400000)
          else None in
        match offset with
        | Some k =>
            if Z.abs (t + k) <=? maxTimeValue then Some (mkDate (Num (t + k)))
            else None
        | None => None
        end
    | NaN => None
    end.

Definition alice : Context := mkContext (Some "t2_alice") (Some "t3_postx").

Definition world0 : World :=
  mkWorld (mkRedis ∅ ∅)
    {[ "t2_alice" := mkUser "alice" ]}
    {[ "t3_postx" := mkPost "Post X" "/r/test/comments/postx" ]}
    0 [].

Definition bob : Context := mkContext (Some "t2_bob") (Some "t3_postx").

(** An interaction without a logged-in user. *)
Definition anonymous : Context := mkContext None (Some "t3_postx").

(** [world0] after [alice] passed stage 1 with a reminder at 7200000. *)
Definition world1 : World :=
  (RemindMeFormDataFlow.setDataAfterTimeInput alice
     (mkRemindMeFormData (Num 7200000)) world0).2.

(** The job was created before the instant at which it is due. *)
Definition createdBeforeRunAt (job : ScheduledJob) : Prop :=
  number_lt (initTimestamp (data job)) (getTime (runAt job)) = true.

(** Modelled from the spec: a successful parse is a [Timestamp], an
    absolute point in time, so the date the parser returns is a valid
    date. *)
Definition parsesValidDates `{Chrono} : Prop :=
  forall text ref d, parseDate text ref = Some d -> isValidDate d = true.

(** What the application maintains from one event to the next. *)
Definition invariant (w : World) : Prop :=
  store_wf (redis w) /\
  forall job, job ∈ scheduled (trace w) -> createdBeforeRunAt job.

(** [world0] with a handoff record for [alice] that holds the text of
    [NaN]. *)
Definition worldNaN : World :=
  (RemindMeFormDataFlow.setDataAfterTimeInput alice
     (mkRemindMeFormData NaN) world0).2.

(** The toasts shown in a trace. *)
Definition toasts (tr : list Effect) : list string :=
  omap (fun e => match e with ShowToast text => Some text | _ => None end) tr.

(** The forms shown in a trace, each with the data passed to it. *)
Definition formsShown (tr : list Effect)
  : list (FormKey * option RemindMeFormData) :=
  omap (fun e => match e with
                 | ShowForm form formData => Some (form, formData)
                 | _ => None
                 end) tr.

(** The text holds no colon. *)
Fixpoint noColon (s : string) : bool :=
  match s with
  | EmptyString => true
  | String a s' => negb (Ascii.eqb a ":"%char) && noColon s'
  end.

Definition isSubmitTimeInput (e : Event) : bool :=
  match e with SubmitTimeInput _ _ => true | _ => false end.

Definition isFireReminder (e : Event) : bool :=
  match e with FireReminder _ => true | _ => false end.

(** The number of events of a history that satisfy [p]. *)
Definition countEvents (p : Event -> bool) (es : list (Z * Event)) : nat :=
  length (List.filter (fun te => p te.2) es).

(** Every record of the store is the single field [reminderTimestamp] with
    a text that is not empty, and has an expiry of one hour; no expiry is
    kept for a key without a record. *)
Definition store_tidy (r : Redis) : Prop :=
  forall key,
    match hashes r !! key with
    | Some h =>
        (exists s, h = {[ "reminderTimestamp" := s ]} /\ s <> "") /\
        expiry r !! key = Some 3600
    | None => expiry r !! key = None
    end.

(** [world1] with a second field in the record of [alice] and a record for
    [bob]. *)
Definition world2 : World :=
  mkWorld
    (mkRedis
       (<[ "t2_bob::t3_postx" := {[ "reminderTimestamp" := "42" ]} ]>
          (<[ "t2_alice::t3_postx" :=
                {[ "reminderTimestamp" := "7200000"; "note" := "kept" ]} ]> ∅))
       {[ "t2_bob::t3_postx" := 3600 ]})
    (users world0) (posts world0) 0 [].

(** The interaction an event belongs to, when it comes from the UI. *)
Definition eventContext (e : Event) : option Context :=
  match e with
  | PressMenu context | SubmitTimeInput _ context
  | SubmitTimeConfirmation context => Some context
  | FireReminder _ => None
  end.

(** The event comes from an interaction other than [c], with both
    identifiers and a user id without a colon, or from the scheduler. *)
Definition fromAnother (c : Context) (e : Event) : Prop :=
  match eventContext e with
  | Some c' =>
      identified c' = true /\ noColon (str (userId c')) = true /\ c' <> c
  | None => True
  end.

(** ** The job body when a host call can reject *)

(** How an awaited call settles: it is fulfilled with a value, or it
    rejects with an error, which the [await] throws. *)
Inductive Settled (A : Type) : Type :=
| Fulfilled (a : A)
| Rejected (error : string).

Arguments Fulfilled {A} a.
Arguments Rejected {A} error.

(** The calls to the Reddit API that reject, each with its error: the
    lookups by id, and the sending of a message.  A lookup that is not
    listed settles as the directory of the world says, with the record or
    with [undefined]. *)
Record Outage := mkOutage {
  userOutage : gmap string string;
  postOutage : gmap string string;
  sendOutage : option string
}.

Definition noOutage : Outage := mkOutage ∅ ∅ None.

(** An [async] function whose awaits can throw: it returns, or it rejects
    with the error of the call that rejected. *)
Definition Async (A : Type) : Type := World -> Settled A * World.

(** [const x = await m; f x]: a rejection of [m] is not caught, so it ends
    the function. *)
Definition await {A B} (m : Async A) (f : A -> Async B) : Async B :=
  fun w =>
    match m w with
    | (Fulfilled a, w') => f a w'
    | (Rejected error, w') => (Rejected error, w')
    end.

Definition reddit_getUserById (o : Outage) (id : string) : Async (option User) :=
  fun w =>
    (match userOutage o !! id with
     | Some error => Rejected error
     | None => Fulfilled (users w !! id)
     end, emit (GetUserById id) w).

Definition reddit_getPostById (o : Outage) (id : string) : Async (option Post) :=
  fun w =>
    (match postOutage o !! id with
     | Some error => Rejected error
     | None => Fulfilled (posts w !! id)
     end, emit (GetPostById id) w).

Definition reddit_sendPrivateMessage (o : Outage) (to subject text : string)
  : Async unit :=
  fun w =>
    (match sendOutage o with
     | Some error => Rejected error
     | None => Fulfilled tt
     end, emit (SendPrivateMessage to subject text) w).

(** The [onRun] of the scheduler job, with the awaits of its three calls:
    the body has no [try], so a call that rejects ends it. *)
Definition onRun (o : Outage) (event_data : ReminderJobData) : Async unit :=
  let '(mkReminderJobData userId postId initTimestamp) := event_data in
  await (reddit_getUserById o userId) (fun user =>
  await (reddit_getPostById o postId) (fun post =>
  match user, post with
  | Some user, Some post =>
      let message :=
        "Hey! You asked me to remind you about [" +:+ title post +:+ "](" +:+
        permalink post +:+ "). You set this reminder on " +:+
        toUTCString (new_Date initTimestamp) +:+ "!" in
      await (reddit_sendPrivateMessage o (username user)
               ("Reminder for '" +:+ title post +:+ "' - " +:+ APP_NAME)
               message)
        (fun _ w => (Fulfilled tt, w))
  | _, _ => fun w => (Fulfilled tt, w)
  end)).




(** ** The confirmation handler, split at an await *)

(** The handler up to the point where [hMGet] has answered: [None] when the
    handler has already returned, else the value read. *)
Definition confirm_begin (context : Context) : Task (option (option string)) :=
  let '(mkContext userId postId) := context in
  if falsy postId then mret None else
  if falsy userId then
    showToast "I can only remind you if you're logged in";; mret None
  else
    let key := str userId +:+ "::" +:+ str postId in
    values ← hMGet key ["reminderTimestamp"];
    mret (Some (head values ≫= id)).

(** The handler from the [del] on, given the value [hMGet] answered. *)
Definition confirm_end (context : Context) (stored : option string)
  : Task unit :=
  let '(mkContext userId postId) := context in
  let key := str userId +:+ "::" +:+ str postId in
  del key;;
  let data :=
    if falsy stored then None
    else Some (mkRemindMeFormData (ToNumber (str stored))) in
  match data with
  | None => showToast "An error occured while setting the reminder"
  | Some data =>
      let reminderDate := new_Date (reminderTimestamp data) in
      nowDate ← Date_now;
      if Date_le reminderDate nowDate then
        showToast "I can't remind you in the past!"
      else
        runJob (mkScheduledJob REMINDER_JOB_NAME reminderDate
                  (mkReminderJobData (str userId) (str postId) (getTime nowDate)));;
        showToast ("Gotcha! I'll send you a message about this post at " +:+
                   toUTCString reminderDate +:+ "!")
  end.

(** * Properties *)

Import RemindMeFormDataFlow.

Local Open Scope list_scope.

(** ** Text of numbers *)

Lemma ToNumber_digits (d : uint) :
  d <> Nil -> ToNumber (NilZero.string_of_uint d) = Num (Z.of_uint d).
Proof.
  intros Hd. pose proof (NilZero.usu d Hd) as E.
  destruct d; try congruence;
    cbn [NilZero.string_of_uint NilEmpty.string_of_uint] in *;
    unfold ToNumber; cbn [Ascii.eqb Bool.eqb]; now rewrite E.
Qed.

Lemma of_uint_to_uint (p : positive) : Z.of_uint (Pos.to_uint p) = Z.pos p.
Proof. unfold Z.of_uint. now rewrite DecimalPos.Unsigned.of_to. Qed.

(** Writing a number as text and reading the text back gives the number. *)
Lemma ToNumber_ToString (n : number) : ToNumber (ToString n) = n.
Proof.
  destruct n as [[|p|p]|]; try reflexivity.
  - cbn [ToString Z.to_int NilZero.string_of_int].
    rewrite ToNumber_digits by apply DecimalPos.Unsigned.to_uint_nonnil.
    now rewrite of_uint_to_uint.
  - cbn [ToString Z.to_int NilZero.string_of_int].
    unfold ToNumber. cbn [Ascii.eqb Bool.eqb].
    rewrite NilZero.usu by apply DecimalPos.Unsigned.to_uint_nonnil.
    now rewrite of_uint_to_uint.
Qed.

Lemma string_of_uint_nonempty (d : uint) : NilZero.string_of_uint d <> "".
Proof. destruct d; discriminate. Qed.

(** The text of a number is never the empty string. *)
Lemma ToString_truthy (n : number) : truthy (Some (ToString n)) = true.
Proof.
  destruct n as [[|p|p]|]; try reflexivity.
  cbn [ToString Z.to_int NilZero.string_of_int truthy].
  destruct (NilZero.string_of_uint (Pos.to_uint p)) eqn:E; [|reflexivity].
  now apply string_of_uint_nonempty in E.
Qed.

Lemma decode_ToString (n : number) :
  decode (Some (ToString n)) = Some (mkRemindMeFormData n).
Proof.
  unfold decode, falsy. rewrite ToString_truthy. cbn [negb str].
  now rewrite ToNumber_ToString.
Qed.

(** ** The two operations of the handoff, as equations *)

Lemma identified_falsy (context : Context) :
  identified context = true ->
  falsy (userId context) || falsy (postId context) = false.
Proof.
  unfold identified, falsy. intros [-> ->]%andb_true_iff. reflexivity.
Qed.

Lemma unidentified_falsy (context : Context) :
  identified context = false ->
  falsy (userId context) || falsy (postId context) = true.
Proof.
  unfold identified, falsy.
  destruct (truthy (userId context)), (truthy (postId context)); easy.
Qed.

Lemma setData_identified (context : Context) (d : RemindMeFormData) (w : World) :
  identified context = true ->
  setDataAfterTimeInput context d w =
    (tt,
     let key := handoffKey context in
     let fv := {[ "reminderTimestamp" := ToString (reminderTimestamp d) ]} in
     mkWorld
       (mkRedis
          (<[key := fv ∪ default ∅ (hashes (redis w) !! key)]> (hashes (redis w)))
          (<[key := 3600]> (expiry (redis w))))
       (users w) (posts w) (now w)
       (trace w ++ [RedisHSet key fv; RedisExpire key 3600])).
Proof.
  intros Hid. apply identified_falsy in Hid.
  destruct context as [u p]. unfold setDataAfterTimeInput. cbn in Hid.
  rewrite Hid. unfold handoffKey, mbind, Task_bind, hSet, expire, set_redis, emit.
  cbn. rewrite lookup_insert_eq. now rewrite <- app_assoc.
Qed.

Lemma retrieve_identified (context : Context) (w : World) :
  identified context = true ->
  retrieveDataAfterTimeConfirmation context w =
    (let key := handoffKey context in
     decode (hashes (redis w) !! key ≫= fun h => h !! "reminderTimestamp"),
     let key := handoffKey context in
     mkWorld
       (mkRedis (delete key (hashes (redis w))) (delete key (expiry (redis w))))
       (users w) (posts w) (now w)
       (trace w ++ [RedisHMGet key ["reminderTimestamp"]; RedisDel key])).
Proof.
  intros Hid. apply identified_falsy in Hid.
  destruct context as [u p]. unfold retrieveDataAfterTimeConfirmation.
  cbn in Hid. rewrite Hid.
  unfold handoffKey, mbind, Task_bind, hMGet, del, set_redis, emit, decode.
  cbn. rewrite <- app_assoc. unfold mbind, option_bind. cbn.
  match goal with |- context [falsy ?x] => destruct (falsy x) end; reflexivity.
Qed.

(** Closes [identified context = true] when the context holds that both
    identifiers passed the falsy checks of a handler. *)
Ltac both_present :=
  unfold identified, falsy in *;
  repeat match goal with
         | H : negb (truthy ?x) = false |- _ => destruct (truthy x)
         end; done.

Lemma world_eta (w : World) :
  mkWorld (redis w) (users w) (posts w) (now w) (trace w) = w.
Proof. now destruct w. Qed.

Lemma setData_unidentified (context : Context) (d : RemindMeFormData) (w : World) :
  identified context = false -> setDataAfterTimeInput context d w = (tt, w).
Proof.
  intros Hid. apply unidentified_falsy in Hid.
  destruct context as [u p]. unfold setDataAfterTimeInput. cbn in Hid.
  now rewrite Hid.
Qed.

Lemma retrieve_unidentified (context : Context) (w : World) :
  identified context = false ->
  retrieveDataAfterTimeConfirmation context w = (None, w).
Proof.
  intros Hid. apply unidentified_falsy in Hid.
  destruct context as [u p]. unfold retrieveDataAfterTimeConfirmation.
  cbn in Hid. now rewrite Hid.
Qed.

Lemma bind_run {A B} (m : Task A) (f : A -> Task B) (w : World) :
  (m ≫= f) w = let '(a, w') := m w in f a w'.
Proof. reflexivity. Qed.

(** The confirmation handler, read off as a function of the world. *)
Lemma confirm_run (context : Context) (w : World) :
  timeConfirmationForm_onSubmit context w =
    (tt,
     if falsy (postId context) then w
     else if falsy (userId context) then
       emit (ShowToast "I can only remind you if you're logged in") w
     else
       let '(data, w1) := retrieveDataAfterTimeConfirmation context w in
       match data with
       | None => emit (ShowToast "An error occured while setting the reminder") w1
       | Some data =>
           let reminderDate := new_Date (reminderTimestamp data) in
           if Date_le reminderDate (mkDate (Num (now w1))) then
             emit (ShowToast "I can't remind you in the past!") w1
           else
             emit (ShowToast ("Gotcha! I'll send you a message about this post at "
                              +:+ toUTCString reminderDate +:+ "!"))
               (emit (RunJob (mkScheduledJob REMINDER_JOB_NAME reminderDate
                                (mkReminderJobData (str (userId context))
                                   (str (postId context)) (Num (now w1))))) w1)
       end).
Proof.
  destruct context as [u p]. unfold timeConfirmationForm_onSubmit.
  cbn [userId postId].
  destruct (falsy p); [reflexivity|]. destruct (falsy u); [reflexivity|].
  rewrite bind_run.
  destruct (retrieveDataAfterTimeConfirmation _ w) as [[data|] w1];
    [|reflexivity].
  rewrite bind_run. cbn [Date_now getTime].
  destruct (Date_le _ _); [reflexivity|]. now rewrite bind_run.
Qed.

(** The stage 1 handler, read off as a function of the world. *)
Lemma input_run `{Chrono} (timeString : string) (context : Context) (w : World) :
  timeInputForm_onSubmit timeString context w =
    (tt,
     match parseDate timeString (mkDate (Num (now w))) with
     | None => emit (ShowToast "I couldn't quite get that!") w
     | Some parsedDate =>
         let data := mkRemindMeFormData (getTime parsedDate) in
         emit (ShowForm TimeConfirmationForm (Some data))
           (setDataAfterTimeInput context data w).2
     end).
Proof.
  unfold timeInputForm_onSubmit. rewrite bind_run. unfold chrono_parseDate.
  destruct (parseDate _ _) as [d|]; [|reflexivity].
  rewrite bind_run. now destruct (setDataAfterTimeInput _ _ w) as [[] w1].
Qed.

(** The job body, read off as a function of the world. *)
Lemma onRun_run (d : ReminderJobData) (w : World) :
  reminder_onRun d w =
    (tt,
     let w2 := emit (GetPostById (data_postId d))
                 (emit (GetUserById (data_userId d)) w) in
     match users w !! data_userId d, posts w !! data_postId d with
     | Some user, Some post =>
         emit (SendPrivateMessage (username user)
                 ("Reminder for '" +:+ title post +:+ "' - " +:+ APP_NAME)
                 ("Hey! You asked me to remind you about [" +:+ title post +:+
                  "](" +:+ permalink post +:+ "). You set this reminder on " +:+
                  toUTCString (new_Date (initTimestamp d)) +:+ "!")) w2
     | _, _ => w2
     end).
Proof.
  destruct d as [uid pid ts]. unfold reminder_onRun.
  rewrite bind_run. unfold getUserById at 1. rewrite bind_run.
  unfold getPostById at 1.
  cbn [data_userId data_postId initTimestamp users posts emit].
  destruct (users w !! uid), (posts w !! pid); reflexivity.
Qed.

(** ** Events that leave a handoff record alone *)

Lemma handle_frame `{Chrono} (key : string) (e : Event) (w : World) :
  ~ touches key e ->
  hashes (redis (handle e w).2) !! key = hashes (redis w) !! key.
Proof.
  destruct e as [ctx | text ctx | ctx | d]; cbn [touches handle]; intros Hk.
  - reflexivity.
  - rewrite input_run. cbn [snd].
    destruct (parseDate _ _) as [pd|]; [|reflexivity].
    destruct (identified ctx) eqn:Hid.
    + rewrite setData_identified by done. cbn. by rewrite lookup_insert_ne.
    + by rewrite setData_unidentified.
  - rewrite confirm_run. cbn [snd].
    destruct (falsy (postId ctx)) eqn:Hp; [reflexivity|].
    destruct (falsy (userId ctx)) eqn:Hu; [reflexivity|].
    rewrite retrieve_identified by both_present.
    cbv zeta. destruct (decode _) as [data|]; cbn.
    + destruct (Date_le _ _); cbn; by rewrite lookup_delete_ne.
    + by rewrite lookup_delete_ne.
  - rewrite onRun_run. cbn [snd].
    destruct (users w !! data_userId d), (posts w !! data_postId d);
      reflexivity.
Qed.

Lemma run_frame `{Chrono} (key : string) (es : list (Z * Event)) (w : World) :
  Forall (fun te => ~ touches key te.2) es ->
  hashes (redis (run es w)) !! key = hashes (redis w) !! key.
Proof.
  intros Hes. revert w.
  induction Hes as [|[t e] es He _ IH]; intros w; [reflexivity|].
  cbn [run]. rewrite IH. now rewrite handle_frame.
Qed.

(** A record that is absent stays absent until stage 1 writes it. *)
Lemma handle_absent `{Chrono} (key : string) (e : Event) (w : World) :
  ~ puts key e ->
  hashes (redis w) !! key = None ->
  hashes (redis (handle e w).2) !! key = None.
Proof.
  intros Hp Hw.
  destruct e as [ctx | text ctx | ctx | d];
    try (rewrite handle_frame; [exact Hw | exact Hp || (cbn; tauto)]).
  cbn [handle]. rewrite confirm_run. cbn [snd].
  destruct (falsy (postId ctx)) eqn:Hpo; [exact Hw|].
  destruct (falsy (userId ctx)) eqn:Hu; [exact Hw|].
  rewrite retrieve_identified by both_present.
  cbv zeta.
  assert (Hd : delete (handoffKey ctx) (hashes (redis w)) !! key = None).
  { destruct (decide (handoffKey ctx = key)) as [->|Hne].
    - apply lookup_delete_eq.
    - by rewrite lookup_delete_ne. }
  destruct (decode _) as [data|]; cbn; [|exact Hd].
  destruct (Date_le _ _); exact Hd.
Qed.

Lemma run_absent `{Chrono} (key : string) (es : list (Z * Event)) (w : World) :
  Forall (fun te => ~ puts key te.2) es ->
  hashes (redis w) !! key = None ->
  hashes (redis (run es w)) !! key = None.
Proof.
  intros Hes. revert w.
  induction Hes as [|[t e] es He _ IH]; intros w Hw; [exact Hw|].
  cbn [run]. apply IH. now apply handle_absent.
Qed.

(** ** The handoff store *)

Lemma lookup_after_put (s : string) (old : gmap string string) :
  ({[ "reminderTimestamp" := s ]} ∪ old) !! "reminderTimestamp" = Some s.
Proof. apply lookup_union_Some_l, lookup_singleton_eq. Qed.

(** C1. The handoff is single-use: once [retrieveDataAfterTimeConfirmation]
    has run for a key, and whatever it returned, a second call for the same
    key returns [null] as long as no stage 1 submission for that key came in
    between, because the first call deleted the key right after reading. *)
Theorem handoff_single_use `{Chrono} (context : Context)
    (es : list (Z * Event)) (w : World) :
  Forall (fun te => ~ puts (handoffKey context) te.2) es ->
  (retrieveDataAfterTimeConfirmation context
     (run es (retrieveDataAfterTimeConfirmation context w).2)).1 = None.
Proof.
  intros Hes. destruct (identified context) eqn:Hid.
  - rewrite (retrieve_identified context w Hid). cbn [snd].
    rewrite retrieve_identified by exact Hid. cbn [fst].
    rewrite run_absent; [reflexivity | exact Hes |].
    cbn. apply lookup_delete_eq.
  - now rewrite retrieve_unidentified.
Qed.

Lemma handoff_single_use_witness :
  (retrieveDataAfterTimeConfirmation alice world1).1
    = Some (mkRemindMeFormData (Num 7200000)) /\
  (retrieveDataAfterTimeConfirmation alice
     (@run sampleChrono
        [(10, PressMenu alice); (20, SubmitTimeInput "in one hour" bob)]
        (retrieveDataAfterTimeConfirmation alice world1).2)).1 = None.
Proof.
  split.
  - vm_compute. reflexivity.
  - apply (@handoff_single_use sampleChrono alice).
    repeat constructor; cbn; [tauto | discriminate].
Defined.

(** C5. After [setDataAfterTimeInput] has written the record of a key,
    [retrieveDataAfterTimeConfirmation] for that key returns the data that
    was written, with the same [reminderTimestamp], when no event worked on
    that key in between: the text stored in Redis decodes to the number it
    encodes. *)
Theorem handoff_roundtrip `{Chrono} (context : Context) (d : RemindMeFormData)
    (es : list (Z * Event)) (w : World) :
  identified context = true ->
  Forall (fun te => ~ touches (handoffKey context) te.2) es ->
  (retrieveDataAfterTimeConfirmation context
     (run es (setDataAfterTimeInput context d w).2)).1 = Some d.
Proof.
  intros Hid Hes. rewrite retrieve_identified by exact Hid. cbn [fst].
  rewrite run_frame by exact Hes.
  rewrite setData_identified by exact Hid. cbn.
  rewrite lookup_insert_eq. cbn.
  rewrite lookup_after_put. rewrite decode_ToString.
  now destruct d.
Qed.

Lemma handoff_roundtrip_witness :
  (retrieveDataAfterTimeConfirmation alice
     (@run sampleChrono
        [(10, SubmitTimeInput "in one hour" bob); (20, SubmitTimeConfirmation bob)]
        (setDataAfterTimeInput alice
           (mkRemindMeFormData (Num 1700000000000)) world0).2)).1
    = Some (mkRemindMeFormData (Num 1700000000000)).
Proof.
  apply (@handoff_roundtrip sampleChrono alice); [reflexivity|].
  repeat constructor; cbn; discriminate.
Defined.

(** C6. [setDataAfterTimeInput] overwrites whatever the key held with the
    new request field and sets the expiry of the key to one hour, so the
    pair has one live record, the last one written: after two writes the
    read returns the second, and a further read returns nothing. *)
Theorem put_overwrites (context : Context) (d1 d2 : RemindMeFormData) (w : World) :
  identified context = true ->
  let key := handoffKey context in
  let w1 := (setDataAfterTimeInput context d1 w).2 in
  let w2 := (setDataAfterTimeInput context d2 w1).2 in
  (hashes (redis w1) !! key ≫= fun h => h !! "reminderTimestamp")
    = Some (ToString (reminderTimestamp d1)) /\
  expiry (redis w1) !! key = Some (60 * 60) /\
  expiry (redis w2) !! key = Some (60 * 60) /\
  (retrieveDataAfterTimeConfirmation context w2).1 = Some d2 /\
  (retrieveDataAfterTimeConfirmation context
     (retrieveDataAfterTimeConfirmation context w2).2).1 = None.
Proof.
  intros Hid key w1 w2. subst w2 w1 key.
  rewrite !setData_identified by exact Hid. cbn.
  rewrite !lookup_insert_eq. cbn. rewrite lookup_after_put.
  repeat split.
  - rewrite retrieve_identified by exact Hid. cbn.
    rewrite lookup_insert_eq. cbn. rewrite lookup_after_put.
    rewrite decode_ToString. now destruct d2.
  - rewrite !retrieve_identified by exact Hid. cbn.
    now rewrite lookup_delete_eq.
Qed.

Lemma put_overwrites_witness :
  let d1 := mkRemindMeFormData (Num 1000) in
  let d2 := mkRemindMeFormData (Num 2000) in
  let w1 := (setDataAfterTimeInput alice d1 world1).2 in
  let w2 := (setDataAfterTimeInput alice d2 w1).2 in
  (hashes (redis w1) !! handoffKey alice ≫= fun h => h !! "reminderTimestamp")
    = Some "1000" /\
  expiry (redis w1) !! handoffKey alice = Some 3600 /\
  expiry (redis w2) !! handoffKey alice = Some 3600 /\
  (retrieveDataAfterTimeConfirmation alice w2).1 = Some d2 /\
  (retrieveDataAfterTimeConfirmation alice
     (retrieveDataAfterTimeConfirmation alice w2).2).1 = None.
Proof.
  exact (put_overwrites alice (mkRemindMeFormData (Num 1000))
           (mkRemindMeFormData (Num 2000)) world1 eq_refl).
Defined.

(** C7. When the user id or the post id of the interaction is missing,
    [setDataAfterTimeInput] and [retrieveDataAfterTimeConfirmation] leave the
    world as it is (no call reaches Redis: the trace is unchanged) and
    return, the first nothing and the second [null]. *)
Theorem missing_identity_is_noop (context : Context) (d : RemindMeFormData)
    (w : World) :
  falsy (userId context) = true \/ falsy (postId context) = true ->
  setDataAfterTimeInput context d w = (tt, w) /\
  retrieveDataAfterTimeConfirmation context w = (None, w).
Proof.
  intros Hmiss.
  assert (Hid : identified context = false).
  { unfold identified, falsy in *.
    destruct (truthy (userId context)), (truthy (postId context));
      cbn in *; intuition congruence. }
  split.
  - now apply setData_unidentified.
  - now apply retrieve_unidentified.
Qed.

Lemma missing_identity_is_noop_witness :
  setDataAfterTimeInput anonymous (mkRemindMeFormData (Num 5)) world1
    = (tt, world1) /\
  retrieveDataAfterTimeConfirmation anonymous world1 = (None, world1).
Proof.
  apply (missing_identity_is_noop anonymous). left. reflexivity.
Defined.

(** ** The confirmation step *)

Lemma retrieve_Some_identified (context : Context) (w : World)
    (d : RemindMeFormData) :
  (retrieveDataAfterTimeConfirmation context w).1 = Some d ->
  identified context = true.
Proof.
  destruct (identified context) eqn:Hid; [reflexivity|].
  now rewrite retrieve_unidentified.
Qed.

Lemma identified_inv (context : Context) :
  identified context = true ->
  falsy (userId context) = false /\ falsy (postId context) = false.
Proof.
  unfold identified, falsy. now intros [-> ->]%andb_true_iff.
Qed.

Lemma scheduled_snoc (tr : list Effect) (e : Effect) :
  scheduled (tr ++ [e]) =
    scheduled tr ++ match e with RunJob job => [job] | _ => [] end.
Proof. unfold scheduled. rewrite omap_app. now destruct e. Qed.


(** C2. When the date built from the retrieved reminder timestamp is not
    after the current date ([reminderDate <= nowDate]), the confirmation
    handler shows the toast about the past and returns: no job is
    registered. *)
Theorem past_time_never_scheduled (context : Context) (w : World)
    (d : RemindMeFormData) :
  (retrieveDataAfterTimeConfirmation context w).1 = Some d ->
  Date_le (new_Date (reminderTimestamp d)) (mkDate (Num (now w))) = true ->
  let w1 := (retrieveDataAfterTimeConfirmation context w).2 in
  let w' := (timeConfirmationForm_onSubmit context w).2 in
  w' = emit (ShowToast "I can't remind you in the past!") w1 /\
  scheduled (trace w') = scheduled (trace w).
Proof.
  intros Hret Hle w1 w'. subst w1 w'.
  pose proof (retrieve_Some_identified _ _ _ Hret) as Hid.
  destruct (identified_inv _ Hid) as [Hu Hp].
  rewrite confirm_run. cbn [snd]. rewrite Hu, Hp.
  rewrite (retrieve_identified _ _ Hid) in *. cbn [fst snd] in *.
  cbv zeta. rewrite Hret. cbn [now]. rewrite Hle. split; [reflexivity|].
  cbn [emit trace]. rewrite scheduled_snoc.
  replace (trace w ++ [RedisHMGet (handoffKey context) ["reminderTimestamp"];
                       RedisDel (handoffKey context)])
    with ((trace w ++ [RedisHMGet (handoffKey context) ["reminderTimestamp"]])
          ++ [RedisDel (handoffKey context)]) by now rewrite <- app_assoc.
  rewrite !scheduled_snoc. now rewrite !app_nil_r.
Qed.

Lemma past_time_never_scheduled_witness :
  (timeConfirmationForm_onSubmit alice (at_time 7200000 world1)).2
    = emit (ShowToast "I can't remind you in the past!")
        (retrieveDataAfterTimeConfirmation alice (at_time 7200000 world1)).2 /\
  scheduled (trace (timeConfirmationForm_onSubmit alice (at_time 7200000 world1)).2)
    = scheduled (trace (at_time 7200000 world1)).
Proof.
  apply (past_time_never_scheduled alice (at_time 7200000 world1)
           (mkRemindMeFormData (Num 7200000))).
  - vm_compute. reflexivity.
  - vm_compute. reflexivity.
Defined.

(** ** The job body *)

Lemma string_app_assoc (s1 s2 s3 : string) :
  (s1 +:+ s2) +:+ s3 = s1 +:+ (s2 +:+ s3).
Proof.
  induction s1 as [|a s1 IH]; [reflexivity|].
  change (String a ((s1 +:+ s2) +:+ s3) = String a (s1 +:+ (s2 +:+ s3))).
  now rewrite IH.
Qed.

(** C3. When the user and the post of the job both resolve, the job body
    makes one call to the messaging channel, after the two lookups: it is
    addressed to the resolved user, and its text holds the title the post
    has when the job fires and the date of the [initTimestamp] of the job
    data; the instant at which the job fires has no part in it. *)
Theorem reminder_delivered (d : ReminderJobData) (w : World)
    (user : User) (post : Post) :
  users w !! data_userId d = Some user ->
  posts w !! data_postId d = Some post ->
  exists subject text,
    trace (reminder_onRun d w).2 =
      trace w ++ [GetUserById (data_userId d); GetPostById (data_postId d);
                  SendPrivateMessage (username user) subject text] /\
    sent (trace (reminder_onRun d w).2) =
      sent (trace w) ++ [(username user, subject, text)] /\
    includes text (title post) /\
    includes text (toUTCString (new_Date (initTimestamp d))) /\
    forall t,
      sent (trace (reminder_onRun d (at_time t w)).2) =
        sent (trace w) ++ [(username user, subject, text)].
Proof.
  intros Hu Hp. eexists _, _.
  assert (Hrun : forall t, trace (reminder_onRun d (at_time t w)).2 =
    trace w ++ [GetUserById (data_userId d); GetPostById (data_postId d);
      SendPrivateMessage (username user)
        ("Reminder for '" +:+ title post +:+ "' - " +:+ APP_NAME)
        ("Hey! You asked me to remind you about [" +:+ title post +:+
         "](" +:+ permalink post +:+ "). You set this reminder on " +:+
         toUTCString (new_Date (initTimestamp d)) +:+ "!")]).
  { intros t. rewrite onRun_run. cbn [snd at_time users posts].
    rewrite Hu, Hp. cbn [emit trace]. now rewrite <- !app_assoc. }
  assert (Hsent : forall tr a b m, sent (tr ++ [GetUserById a; GetPostById b;
            SendPrivateMessage m.1.1 m.1.2 m.2]) = sent tr ++ [m]).
  { intros tr a b [[m1 m2] m3]. unfold sent. now rewrite omap_app. }
  split; [|split; [|split; [|split]]].
  - rewrite <- (Hrun (now w)). unfold at_time. now rewrite world_eta.
  - rewrite <- (world_eta w) at 1. fold (at_time (now w) w). rewrite Hrun.
    apply (Hsent (trace w) _ _ (_, _, _)).
  - unfold includes. eexists _, _. reflexivity.
  - unfold includes.
    exists ("Hey! You asked me to remind you about [" +:+ title post +:+
            "](" +:+ permalink post +:+ "). You set this reminder on "), "!".
    now rewrite !string_app_assoc.
  - intros t. rewrite Hrun. apply (Hsent (trace w) _ _ (_, _, _)).
Qed.

Lemma reminder_delivered_witness :
  let d := mkReminderJobData "t2_alice" "t3_postx" (Num 2000) in
  exists subject text,
    trace (reminder_onRun d world0).2 =
      trace world0 ++ [GetUserById "t2_alice"; GetPostById "t3_postx";
                       SendPrivateMessage "alice" subject text] /\
    sent (trace (reminder_onRun d world0).2) =
      sent (trace world0) ++ [("alice", subject, text)] /\
    includes text "Post X" /\
    includes text "Thu, 01 Jan 1970 00:00:02 GMT" /\
    forall t,
      sent (trace (reminder_onRun d (at_time t world0)).2) =
        sent (trace world0) ++ [("alice", subject, text)].
Proof.
  exact (reminder_delivered (mkReminderJobData "t2_alice" "t3_postx" (Num 2000))
           world0 (mkUser "alice") (mkPost "Post X" "/r/test/comments/postx")
           eq_refl eq_refl).
Defined.

(** The job body with its awaits, read off as a function of the world. *)
Lemma onRun_settles (o : Outage) (d : ReminderJobData) (w : World) :
  onRun o d w =
    let w1 := emit (GetUserById (data_userId d)) w in
    let w2 := emit (GetPostById (data_postId d)) w1 in
    match userOutage o !! data_userId d with
    | Some error => (Rejected error, w1)
    | None =>
        match postOutage o !! data_postId d with
        | Some error => (Rejected error, w2)
        | None =>
            match users w !! data_userId d, posts w !! data_postId d with
            | Some user, Some post =>
                (match sendOutage o with
                 | Some error => Rejected error
                 | None => Fulfilled tt
                 end,
                 emit (SendPrivateMessage (username user)
                         ("Reminder for '" +:+ title post +:+ "' - " +:+ APP_NAME)
                         ("Hey! You asked me to remind you about [" +:+
                          title post +:+ "](" +:+ permalink post +:+
                          "). You set this reminder on " +:+
                          toUTCString (new_Date (initTimestamp d)) +:+ "!")) w2)
            | _, _ => (Fulfilled tt, w2)
            end
        end
    end.
Proof.
  destruct d as [uid pid ts]. unfold onRun, await, reddit_getUserById.
  cbn [data_userId data_postId initTimestamp].
  destruct (userOutage o !! uid) as [e|]; [reflexivity|].
  unfold reddit_getPostById. cbn [users posts emit].
  destruct (postOutage o !! pid) as [e|]; [reflexivity|].
  destruct (users w !! uid) as [user|], (posts w !! pid) as [post|];
    try reflexivity.
  unfold reddit_sendPrivateMessage. now destruct (sendOutage o).
Qed.

(** When no call rejects, the job body returns, and the world it leaves is
    the one of [reminder_onRun]. *)
Lemma onRun_noOutage (d : ReminderJobData) (w : World) :
  onRun noOutage d w = (Fulfilled tt, (reminder_onRun d w).2).
Proof.
  rewrite onRun_settles, onRun_run. cbv zeta. cbn [noOutage userOutage postOutage
    sendOutage snd]. rewrite !lookup_empty.
  now destruct (users w !! data_userId d), (posts w !! data_postId d).
Qed.




(** ** Stage 1 *)

(** C8. When the parser recognises no date in the text (it returns [null]),
    stage 1 shows the toast saying so and stops: it passes no timestamp on,
    writes nothing to the store and does not show the confirmation form. *)
Theorem unrecognized_input_halts `{Chrono} (timeString : string)
    (context : Context) (w : World) :
  parseDate timeString (mkDate (Num (now w))) = None ->
  let w' := (timeInputForm_onSubmit timeString context w).2 in
  w' = emit (ShowToast "I couldn't quite get that!") w /\
  redis w' = redis w /\
  redisCalls (trace w') = redisCalls (trace w) /\
  forall form formData, ShowForm form formData ∈ trace w' ->
                        ShowForm form formData ∈ trace w.
Proof.
  intros Hparse w'. subst w'. rewrite input_run. cbn [snd]. rewrite Hparse.
  repeat split.
  - cbn [emit trace]. unfold redisCalls. rewrite List.filter_app. cbn.
    now rewrite app_nil_r.
  - cbn [emit trace]. intros form formData [Hin | Hin]%elem_of_app; [exact Hin|].
    apply list_elem_of_singleton in Hin. discriminate.
Qed.

Lemma unrecognized_input_halts_witness :
  (@timeInputForm_onSubmit sampleChrono "asdkjhasd" alice world1).2
    = emit (ShowToast "I couldn't quite get that!") world1 /\
  redis (@timeInputForm_onSubmit sampleChrono "asdkjhasd" alice world1).2
    = redis world1 /\
  redisCalls (trace (@timeInputForm_onSubmit sampleChrono "asdkjhasd" alice world1).2)
    = redisCalls (trace world1) /\
  forall form formData,
    ShowForm form formData
      ∈ trace (@timeInputForm_onSubmit sampleChrono "asdkjhasd" alice world1).2 ->
    ShowForm form formData ∈ trace world1.
Proof.
  apply (@unrecognized_input_halts sampleChrono "asdkjhasd" alice world1).
  reflexivity.
Defined.

(** ** Every registered job is due after its creation *)

Lemma scheduled_app (tr1 tr2 : list Effect) :
  scheduled (tr1 ++ tr2) = scheduled tr1 ++ scheduled tr2.
Proof. apply omap_app. Qed.

Lemma isValidDate_inv (d : Date) :
  isValidDate d = true ->
  exists z, getTime d = Num z /\ Z.abs z <= maxTimeValue.
Proof.
  unfold isValidDate. destruct (getTime d) as [z|]; [|discriminate].
  intros Hz%Z.leb_le. now exists z.
Qed.

Lemma store_wf_put (r : Redis) (key : string) (z : Z) (e : gmap string Z) :
  store_wf r -> Z.abs z <= maxTimeValue ->
  store_wf
    (mkRedis
       (<[key := {[ "reminderTimestamp" := ToString (Num z) ]}
                   ∪ default ∅ (hashes r !! key)]> (hashes r)) e).
Proof.
  intros Hwf Hz key' h s. cbn [hashes].
  destruct (decide (key = key')) as [<-|Hne].
  - rewrite lookup_insert_eq. intros [= <-]. rewrite lookup_after_put.
    intros [= <-]. now exists z.
  - rewrite lookup_insert_ne by exact Hne. apply Hwf.
Qed.

Lemma store_wf_delete (r : Redis) (key : string) (e : gmap string Z) :
  store_wf r -> store_wf (mkRedis (delete key (hashes r)) e).
Proof.
  intros Hwf key' h s. cbn [hashes].
  intros Hk Hs. apply lookup_delete_Some in Hk as [_ Hk].
  exact (Hwf key' h s Hk Hs).
Qed.

Lemma invariant_emit (e : Effect) (w : World) :
  scheduled [e] = [] -> invariant w -> invariant (emit e w).
Proof.
  intros He [Hwf Hjobs]. split; [exact Hwf|].
  cbn [emit trace]. rewrite scheduled_app, He, app_nil_r. exact Hjobs.
Qed.

Lemma input_invariant `{Chrono} (timeString : string) (context : Context)
    (w : World) :
  parsesValidDates -> invariant w ->
  invariant (timeInputForm_onSubmit timeString context w).2.
Proof.
  intros Hvalid Hinv. rewrite input_run. cbn [snd].
  destruct (parseDate _ _) as [d|] eqn:Hparse;
    [|now apply invariant_emit].
  apply invariant_emit; [reflexivity|].
  destruct (identified context) eqn:Hid.
  - rewrite setData_identified by exact Hid. cbn [snd reminderTimestamp].
    destruct (isValidDate_inv d (Hvalid _ _ _ Hparse)) as (z & -> & Hz).
    destruct Hinv as [Hwf Hjobs]. split.
    + cbn [redis]. now apply store_wf_put.
    + cbn [trace]. rewrite scheduled_app. cbn. now rewrite app_nil_r.
  - now rewrite setData_unidentified.
Qed.

Lemma confirm_invariant (context : Context) (w : World) :
  invariant w -> invariant (timeConfirmationForm_onSubmit context w).2.
Proof.
  intros Hinv. rewrite confirm_run. cbn [snd].
  destruct (falsy (postId context)) eqn:Hp; [exact Hinv|].
  destruct (falsy (userId context)) eqn:Hu; [now apply invariant_emit|].
  rewrite retrieve_identified by both_present.
  cbv zeta.
  set (key := handoffKey context).
  assert (Hinv1 : invariant
    (mkWorld (mkRedis (delete key (hashes (redis w))) (delete key (expiry (redis w))))
       (users w) (posts w) (now w)
       (trace w ++ [RedisHMGet key ["reminderTimestamp"]; RedisDel key]))).
  { destruct Hinv as [Hwf Hjobs]. split.
    - cbn [redis]. now apply store_wf_delete.
    - cbn [trace]. rewrite scheduled_app. cbn. now rewrite app_nil_r. }
  destruct (hashes (redis w) !! key) as [h|] eqn:Hk; cbn [mbind option_bind];
    [|now apply invariant_emit].
  destruct (h !! "reminderTimestamp") as [s|] eqn:Hs;
    [|now apply invariant_emit].
  unfold decode. destruct (falsy (Some s)); [now apply invariant_emit|].
  cbn [str reminderTimestamp now].
  destruct (proj1 Hinv key h s Hk Hs) as (z & Hz & ->).
  rewrite ToNumber_ToString. unfold new_Date.
  destruct (Z.leb_spec (Z.abs z) maxTimeValue) as [_|Hgt]; [|lia].
  unfold Date_le. cbn [getTime number_le].
  destruct (Z.leb_spec z (now w)) as [Hle|Hlt]; [now apply invariant_emit|].
  apply invariant_emit; [reflexivity|].
  destruct Hinv1 as [Hwf1 Hjobs1]. split; [exact Hwf1|].
  cbn [emit trace]. rewrite scheduled_app. cbn [scheduled omap].
  intros job [Hin | Hin]%elem_of_app; [now apply Hjobs1|].
  apply list_elem_of_singleton in Hin. subst job.
  unfold createdBeforeRunAt. cbn. now apply Z.ltb_lt.
Qed.

Lemma onRun_invariant (d : ReminderJobData) (w : World) :
  invariant w -> invariant (reminder_onRun d w).2.
Proof.
  intros Hinv. rewrite onRun_run. cbn [snd]. cbv zeta.
  destruct (users w !! data_userId d), (posts w !! data_postId d);
    repeat (apply invariant_emit; [reflexivity|]); exact Hinv.
Qed.

Lemma run_invariant `{Chrono} (es : list (Z * Event)) (w : World) :
  parsesValidDates -> invariant w -> invariant (run es w).
Proof.
  intros Hvalid. revert w.
  induction es as [|[t e] es IH]; intros w Hinv; [exact Hinv|].
  cbn [run]. apply IH.
  assert (Hinv' : invariant (at_time t w)) by exact Hinv.
  destruct e as [ctx | text ctx | ctx | d]; cbn [handle].
  - now apply invariant_emit.
  - now apply input_invariant.
  - now apply confirm_invariant.
  - now apply onRun_invariant.
Qed.

(** C10. Every job the confirmation step registers carries an
    [initTimestamp] that is before its [runAt]: the first is the clock read
    at confirmation, and the job is registered only when the reminder date
    is not at or before that same reading.  The statement is over every
    history of the application that starts with an empty store, with a
    parser that returns valid dates. *)
Theorem scheduled_job_created_before_runAt `{Chrono}
    (es : list (Z * Event)) (w0 : World) (job : ScheduledJob) :
  parsesValidDates ->
  hashes (redis w0) = ∅ ->
  scheduled (trace w0) = [] ->
  job ∈ scheduled (trace (run es w0)) ->
  createdBeforeRunAt job.
Proof.
  intros Hvalid Hempty Hnone Hin.
  refine (proj2 (run_invariant es w0 Hvalid _) job Hin).
  split.
  - intros key h s Hk. rewrite Hempty, lookup_empty in Hk. discriminate.
  - rewrite Hnone. intros j Hj. now apply elem_of_nil in Hj.
Qed.

Lemma sampleChrono_valid : @parsesValidDates sampleChrono.
Proof.
  intros text ref d. unfold parseDate, sampleChrono.
  destruct (getTime ref) as [t|]; [|discriminate].
  destruct (if String.eqb text "in one hour" then _ else _) as [k|];
    [|discriminate].
  destruct (Z.abs (t + k) <=? maxTimeValue) eqn:Hk; [|discriminate].
  intros [= <-]. exact Hk.
Qed.

Lemma scheduled_job_created_before_runAt_witness :
  createdBeforeRunAt
    (mkScheduledJob "reminder" (mkDate (Num 3601000))
       (mkReminderJobData "t2_alice" "t3_postx" (Num 2000))).
Proof.
  apply (@scheduled_job_created_before_runAt sampleChrono
           [(1000, PressMenu alice); (1000, SubmitTimeInput "in one hour" alice);
            (2000, SubmitTimeConfirmation alice)] world0).
  - exact sampleChrono_valid.
  - reflexivity.
  - reflexivity.
  - vm_compute. apply list_elem_of_singleton. reflexivity.
Defined.

(** The guard of the confirmation step compares dates, and a comparison
    with the invalid date is false: a record whose text is no valid time
    value is not rejected.  No history of the application writes such a
    record as long as the parser returns valid dates ([run_invariant]). *)
Example invalid_record_passes_the_guard :
  scheduled (trace (timeConfirmationForm_onSubmit alice (at_time 5 worldNaN)).2)
    = [mkScheduledJob "reminder" (mkDate NaN)
         (mkReminderJobData "t2_alice" "t3_postx" (Num 5))].
Proof. vm_compute. reflexivity. Qed.

(** ** Scenarios *)

(** "in one hour" at 1000, confirmed at 2000, fired at 3601000: one message
    to alice about "Post X" that states the confirmation instant. *)
Example scenario_reminder_delivered :
  sent (trace (@run sampleChrono
    [(1000, PressMenu alice);
     (1000, SubmitTimeInput "in one hour" alice);
     (2000, SubmitTimeConfirmation alice);
     (3601000, FireReminder (mkReminderJobData "t2_alice" "t3_postx" (Num 2000)))]
    world0))
  = [("alice", "Reminder for 'Post X' - RemindMe",
      "Hey! You asked me to remind you about [Post X](/r/test/comments/postx). You set this reminder on Thu, 01 Jan 1970 00:00:02 GMT!")].
Proof. vm_compute. reflexivity. Qed.

(** "yesterday": the confirmation is refused and no job is registered; a
    second confirmation finds no record. *)
Example scenario_past_date :
  let w := @run sampleChrono
    [(1000, SubmitTimeInput "yesterday" alice);
     (2000, SubmitTimeConfirmation alice);
     (3000, SubmitTimeConfirmation alice)] world0 in
  scheduled (trace w) = [] /\
  List.filter (fun e => match e with ShowToast _ => true | _ => false end) (trace w)
    = [ShowToast "I can't remind you in the past!";
       ShowToast "An error occured while setting the reminder"].
Proof. vm_compute. split; reflexivity. Qed.

(** Text without a date: one toast, nothing stored. *)
Example scenario_unrecognized :
  let w := @run sampleChrono [(1000, SubmitTimeInput "asdkjhasd" alice)] world0 in
  trace w = [ShowToast "I couldn't quite get that!"] /\ hashes (redis w) = ∅.
Proof. vm_compute. split; reflexivity. Qed.

(** Dates as text. *)
Example toUTCString_epoch :
  toUTCString (mkDate (Num 0)) = "Thu, 01 Jan 1970 00:00:00 GMT".
Proof. reflexivity. Qed.

Example toUTCString_2023 :
  toUTCString (mkDate (Num 1700000000000)) = "Tue, 14 Nov 2023 22:13:20 GMT".
Proof. reflexivity. Qed.

Example toUTCString_leap_day :
  toUTCString (mkDate (Num 951782400000)) = "Tue, 29 Feb 2000 00:00:00 GMT".
Proof. reflexivity. Qed.

Example toUTCString_invalid :
  toUTCString (new_Date (Num 8640000000000001)) = "Invalid Date".
Proof. reflexivity. Qed.

(** * Further properties of the code *)

(** ** The handoff store, beyond the round trip *)

Lemma other_field_after_put (s f : string) (old : gmap string string) :
  f <> "reminderTimestamp" ->
  ({[ "reminderTimestamp" := s ]} ∪ old) !! f = old !! f.
Proof.
  intros Hf. rewrite lookup_union, lookup_singleton_ne by done.
  now destruct (old !! f).
Qed.

(** [setDataAfterTimeInput] changes one thing in the store: the field
    [reminderTimestamp] of the record of its own key, and the expiry of that
    key.  Every other key, its expiry, and every other field of the same
    record are as before. *)
Theorem setData_touches_only_its_field (context : Context)
    (d : RemindMeFormData) (w : World) (key' f : string) :
  key' <> handoffKey context \/ f <> "reminderTimestamp" ->
  let w' := (setDataAfterTimeInput context d w).2 in
  (hashes (redis w') !! key' ≫= fun h => h !! f)
    = (hashes (redis w) !! key' ≫= fun h => h !! f) /\
  (key' <> handoffKey context ->
   hashes (redis w') !! key' = hashes (redis w) !! key' /\
   expiry (redis w') !! key' = expiry (redis w) !! key').
Proof.
  intros Hother w'. subst w'. destruct (identified context) eqn:Hid.
  - rewrite setData_identified by exact Hid. cbn [snd redis hashes expiry].
    split.
    + destruct (decide (key' = handoffKey context)) as [->|Hne].
      * destruct Hother as [Hk|Hf]; [done|].
        rewrite lookup_insert_eq. cbn [mbind option_bind].
        rewrite other_field_after_put by exact Hf.
        now destruct (hashes (redis w) !! handoffKey context).
      * now rewrite lookup_insert_ne.
    + intros Hne. now rewrite !lookup_insert_ne.
  - now rewrite setData_unidentified.
Qed.

Lemma setData_touches_only_its_field_witness :
  let w' := (setDataAfterTimeInput alice (mkRemindMeFormData (Num 5)) world2).2 in
  (hashes (redis w') !! "t2_alice::t3_postx" ≫= fun h => h !! "note")
    = (hashes (redis world2) !! "t2_alice::t3_postx" ≫= fun h => h !! "note") /\
  ("t2_alice::t3_postx" <> handoffKey alice ->
   hashes (redis w') !! "t2_alice::t3_postx"
     = hashes (redis world2) !! "t2_alice::t3_postx" /\
   expiry (redis w') !! "t2_alice::t3_postx"
     = expiry (redis world2) !! "t2_alice::t3_postx").
Proof.
  apply (setData_touches_only_its_field alice (mkRemindMeFormData (Num 5))
           world2 "t2_alice::t3_postx" "note").
  right. discriminate.
Defined.

(** When the key has no record, or the record has no [reminderTimestamp],
    or its text is empty, [retrieveDataAfterTimeConfirmation] returns
    [null]; it has all the same read the field and deleted the key, in that
    order, and made no other call. *)
Theorem retrieve_without_record (context : Context) (w : World) :
  identified context = true ->
  truthy (hashes (redis w) !! handoffKey context
          ≫= fun h => h !! "reminderTimestamp") = false ->
  let key := handoffKey context in
  let r := retrieveDataAfterTimeConfirmation context w in
  r.1 = None /\
  trace r.2 = trace w ++ [RedisHMGet key ["reminderTimestamp"]; RedisDel key] /\
  hashes (redis r.2) !! key = None /\
  expiry (redis r.2) !! key = None.
Proof.
  intros Hid Hfalsy key r. subst r key.
  rewrite retrieve_identified by exact Hid. cbn [fst snd trace redis hashes expiry].
  unfold decode, falsy. rewrite Hfalsy. cbn [negb].
  now rewrite !lookup_delete_eq.
Qed.

Lemma retrieve_without_record_witness :
  (retrieveDataAfterTimeConfirmation alice world0).1 = None /\
  trace (retrieveDataAfterTimeConfirmation alice world0).2 =
    trace world0 ++ [RedisHMGet "t2_alice::t3_postx" ["reminderTimestamp"];
                     RedisDel "t2_alice::t3_postx"] /\
  hashes (redis (retrieveDataAfterTimeConfirmation alice world0).2)
    !! "t2_alice::t3_postx" = None /\
  expiry (redis (retrieveDataAfterTimeConfirmation alice world0).2)
    !! "t2_alice::t3_postx" = None.
Proof.
  apply (retrieve_without_record alice world0); reflexivity.
Defined.

(** [retrieveDataAfterTimeConfirmation] removes the record and the expiry
    of its own key and nothing else: every other key keeps its record and
    its expiry. *)
Theorem retrieve_consumes_only_its_record (context : Context) (w : World)
    (key' : string) :
  identified context = true ->
  let w' := (retrieveDataAfterTimeConfirmation context w).2 in
  hashes (redis w') !! key' =
    (if decide (key' = handoffKey context) then None
     else hashes (redis w) !! key') /\
  expiry (redis w') !! key' =
    (if decide (key' = handoffKey context) then None
     else expiry (redis w) !! key').
Proof.
  intros Hid w'. subst w'. rewrite retrieve_identified by exact Hid.
  cbn [snd redis hashes expiry].
  destruct (decide (key' = handoffKey context)) as [->|Hne].
  - now rewrite !lookup_delete_eq.
  - now rewrite !lookup_delete_ne.
Qed.

Lemma retrieve_consumes_only_its_record_witness :
  let w' := (retrieveDataAfterTimeConfirmation alice world2).2 in
  hashes (redis w') !! "t2_bob::t3_postx" =
    (if decide ("t2_bob::t3_postx" = handoffKey alice) then None
     else hashes (redis world2) !! "t2_bob::t3_postx") /\
  expiry (redis w') !! "t2_bob::t3_postx" =
    (if decide ("t2_bob::t3_postx" = handoffKey alice) then None
     else expiry (redis world2) !! "t2_bob::t3_postx").
Proof.
  apply (retrieve_consumes_only_its_record alice world2 "t2_bob::t3_postx").
  reflexivity.
Defined.

(** ** The key of the handoff record *)

Lemma key_text_inj (u1 u2 p1 p2 : string) :
  noColon u1 = true -> noColon u2 = true ->
  u1 +:+ "::" +:+ p1 = u2 +:+ "::" +:+ p2 -> u1 = u2 /\ p1 = p2.
Proof.
  revert u2. induction u1 as [|a u1 IH]; intros [|b u2] H1 H2 Heq.
  - change (String ":" (String ":" p1) = String ":" (String ":" p2)) in Heq.
    injection Heq as ->. now split.
  - change (String ":" (String ":" p1) = String b (u2 +:+ "::" +:+ p2)) in Heq.
    injection Heq as <- _. cbn in H2. discriminate.
  - change (String a (u1 +:+ "::" +:+ p1) = String ":" (String ":" p2)) in Heq.
    injection Heq as -> _. cbn in H1. discriminate.
  - change (String a (u1 +:+ "::" +:+ p1) = String b (u2 +:+ "::" +:+ p2)) in Heq.
    injection Heq as -> Heq.
    cbn in H1, H2. apply andb_true_iff in H1 as [_ H1].
    apply andb_true_iff in H2 as [_ H2].
    destruct (IH u2 H1 H2 Heq) as [-> ->]. now split.
Qed.

Lemma handoffKey_eq (c1 c2 : Context) :
  identified c1 = true -> identified c2 = true ->
  noColon (str (userId c1)) = true -> noColon (str (userId c2)) = true ->
  handoffKey c1 = handoffKey c2 -> c1 = c2.
Proof.
  destruct c1 as [u1 p1], c2 as [u2 p2]. unfold identified, handoffKey.
  cbn [userId postId].
  intros [Hu1 Hp1]%andb_true_iff [Hu2 Hp2]%andb_true_iff.
  destruct u1 as [u1|], p1 as [p1|], u2 as [u2|], p2 as [p2|];
    try discriminate.
  cbn [str]. intros H1 H2 Heq.
  destruct (key_text_inj u1 u2 p1 p2 H1 H2 Heq) as [-> ->]. reflexivity.
Qed.

(** The key [userId::postId] tells interactions apart: two different
    interactions, each with both identifiers present and a user id without
    a colon, have different keys. *)
Theorem handoffKey_inj (c1 c2 : Context) :
  identified c1 = true -> identified c2 = true ->
  noColon (str (userId c1)) = true -> noColon (str (userId c2)) = true ->
  c1 <> c2 -> handoffKey c1 <> handoffKey c2.
Proof.
  intros Hi1 Hi2 H1 H2 Hne Heq. apply Hne.
  now apply handoffKey_eq.
Qed.

Lemma handoffKey_inj_witness : handoffKey alice <> handoffKey bob.
Proof.
  apply (handoffKey_inj alice bob); try reflexivity. discriminate.
Defined.

(** Without the condition on the colon two different pairs can share a
    key. *)
Example handoffKey_collision :
  handoffKey (mkContext (Some "a::b") (Some "c"))
    = handoffKey (mkContext (Some "a") (Some "b::c")).
Proof. reflexivity. Qed.

(** ** The confirmation handler, branch by branch *)

Lemma toasts_app (tr1 tr2 : list Effect) :
  toasts (tr1 ++ tr2) = toasts tr1 ++ toasts tr2.
Proof. apply omap_app. Qed.

Lemma formsShown_app (tr1 tr2 : list Effect) :
  formsShown (tr1 ++ tr2) = formsShown tr1 ++ formsShown tr2.
Proof. apply omap_app. Qed.

Lemma sent_app (tr1 tr2 : list Effect) :
  sent (tr1 ++ tr2) = sent tr1 ++ sent tr2.
Proof. apply omap_app. Qed.

Lemma redisCalls_app (tr1 tr2 : list Effect) :
  redisCalls (tr1 ++ tr2) = redisCalls tr1 ++ redisCalls tr2.
Proof. apply List.filter_app. Qed.

(** The confirmation handler on an identified interaction, with the
    retrieval spelled out. *)
Lemma confirm_identified (context : Context) (w : World) :
  identified context = true ->
  (timeConfirmationForm_onSubmit context w).2 =
    let key := handoffKey context in
    let w1 :=
      mkWorld
        (mkRedis (delete key (hashes (redis w))) (delete key (expiry (redis w))))
        (users w) (posts w) (now w)
        (trace w ++ [RedisHMGet key ["reminderTimestamp"]; RedisDel key]) in
    match decode (hashes (redis w) !! key ≫= fun h => h !! "reminderTimestamp") with
    | None => emit (ShowToast "An error occured while setting the reminder") w1
    | Some data =>
        let reminderDate := new_Date (reminderTimestamp data) in
        if Date_le reminderDate (mkDate (Num (now w))) then
          emit (ShowToast "I can't remind you in the past!") w1
        else
          emit (ShowToast ("Gotcha! I'll send you a message about this post at "
                           +:+ toUTCString reminderDate +:+ "!"))
            (emit (RunJob (mkScheduledJob REMINDER_JOB_NAME reminderDate
                             (mkReminderJobData (str (userId context))
                                (str (postId context)) (Num (now w))))) w1)
    end.
Proof.
  intros Hid. destruct (identified_inv _ Hid) as [Hu Hp].
  rewrite confirm_run. cbn [snd]. rewrite Hu, Hp.
  now rewrite retrieve_identified by exact Hid.
Qed.

(** The confirmation handler on an interaction that lacks an identifier. *)
Lemma confirm_unidentified (context : Context) (w : World) :
  identified context = false ->
  (timeConfirmationForm_onSubmit context w).2 =
    if falsy (postId context) then w
    else emit (ShowToast "I can only remind you if you're logged in") w.
Proof.
  intros Hid. rewrite confirm_run. cbn [snd].
  destruct (falsy (postId context)) eqn:Hp; [reflexivity|].
  destruct (falsy (userId context)) eqn:Hu; [reflexivity|].
  exfalso. unfold identified, falsy in *.
  destruct (truthy (userId context)), (truthy (postId context)); done.
Qed.

(** A missing record on an identified interaction. *)
Lemma confirm_identified_absent (context : Context) (w : World) :
  identified context = true ->
  truthy (hashes (redis w) !! handoffKey context
          ≫= fun h => h !! "reminderTimestamp") = false ->
  trace (timeConfirmationForm_onSubmit context w).2 =
    trace w ++ [RedisHMGet (handoffKey context) ["reminderTimestamp"];
                RedisDel (handoffKey context);
                ShowToast "An error occured while setting the reminder"].
Proof.
  intros Hid Hfalsy. rewrite confirm_identified by exact Hid. cbv zeta.
  unfold decode, falsy. rewrite Hfalsy. cbn [negb emit trace].
  now rewrite <- app_assoc.
Qed.

(** The record is gone after a confirmation on an identified interaction. *)
Lemma confirm_identified_deletes (context : Context) (w : World) :
  identified context = true ->
  hashes (redis (timeConfirmationForm_onSubmit context w).2)
    !! handoffKey context = None /\
  expiry (redis (timeConfirmationForm_onSubmit context w).2)
    !! handoffKey context = None.
Proof.
  intros Hid. rewrite confirm_identified by exact Hid. cbv zeta.
  destruct (decode _) as [data|]; [destruct (Date_le _ _)|];
    cbn [emit redis hashes expiry]; now rewrite !lookup_delete_eq.
Qed.

(** Without a post id the confirmation handler does nothing at all; with a
    post id but without a user id it shows the toast asking to log in.  In
    both cases it makes no call to Redis, so no record is consumed, and it
    registers no job. *)
Theorem confirm_without_identity (context : Context) (w : World) :
  identified context = false ->
  let w' := (timeConfirmationForm_onSubmit context w).2 in
  redis w' = redis w /\
  redisCalls (trace w') = redisCalls (trace w) /\
  scheduled (trace w') = scheduled (trace w) /\
  toasts (trace w') =
    toasts (trace w) ++
    (if falsy (postId context) then []
     else ["I can only remind you if you're logged in"]).
Proof.
  intros Hid w'. subst w'. rewrite confirm_unidentified by exact Hid.
  destruct (falsy (postId context)).
  - now rewrite app_nil_r.
  - cbn [emit trace redis].
    rewrite redisCalls_app, scheduled_app, toasts_app. cbn.
    now rewrite !app_nil_r.
Qed.

Lemma confirm_without_identity_witness :
  let w' := (timeConfirmationForm_onSubmit anonymous world1).2 in
  redis w' = redis world1 /\
  redisCalls (trace w') = redisCalls (trace world1) /\
  scheduled (trace w') = scheduled (trace world1) /\
  toasts (trace w') =
    toasts (trace world1) ++
    (if falsy (postId anonymous) then []
     else ["I can only remind you if you're logged in"]).
Proof.
  apply (confirm_without_identity anonymous world1). reflexivity.
Defined.

(** When there is no usable record for the key (none, no field, or an empty
    text), the confirmation handler reads, deletes, shows the error toast
    and registers no job. *)
Theorem confirm_without_record (context : Context) (w : World) :
  identified context = true ->
  truthy (hashes (redis w) !! handoffKey context
          ≫= fun h => h !! "reminderTimestamp") = false ->
  let key := handoffKey context in
  let w' := (timeConfirmationForm_onSubmit context w).2 in
  trace w' =
    trace w ++ [RedisHMGet key ["reminderTimestamp"]; RedisDel key;
                ShowToast "An error occured while setting the reminder"] /\
  scheduled (trace w') = scheduled (trace w).
Proof.
  intros Hid Hfalsy key w'. subst w' key.
  rewrite confirm_identified_absent by assumption. split; [reflexivity|].
  rewrite scheduled_app. cbn. now rewrite app_nil_r.
Qed.

Lemma confirm_without_record_witness :
  let w' := (timeConfirmationForm_onSubmit alice world0).2 in
  trace w' =
    trace world0 ++ [RedisHMGet (handoffKey alice) ["reminderTimestamp"];
                     RedisDel (handoffKey alice);
                     ShowToast "An error occured while setting the reminder"] /\
  scheduled (trace w') = scheduled (trace world0).
Proof.
  apply (confirm_without_record alice world0); reflexivity.
Defined.

(** The success path: when the retrieved reminder date is not at or before
    the current date, the handler registers one job, named ["reminder"], due
    at the reminder date, carrying the two ids of the interaction and the
    current time as [initTimestamp], and then shows the toast that names
    the reminder date. *)
Theorem confirm_schedules (context : Context) (w : World)
    (d : RemindMeFormData) :
  (retrieveDataAfterTimeConfirmation context w).1 = Some d ->
  Date_le (new_Date (reminderTimestamp d)) (mkDate (Num (now w))) = false ->
  let w1 := (retrieveDataAfterTimeConfirmation context w).2 in
  let w' := (timeConfirmationForm_onSubmit context w).2 in
  let job := mkScheduledJob "reminder" (new_Date (reminderTimestamp d))
               (mkReminderJobData (str (userId context)) (str (postId context))
                  (Num (now w))) in
  trace w' =
    trace w1 ++ [RunJob job;
                 ShowToast ("Gotcha! I'll send you a message about this post at "
                            +:+ toUTCString (runAt job) +:+ "!")] /\
  scheduled (trace w') = scheduled (trace w) ++ [job] /\
  data_userId (data job) <> "" /\ data_postId (data job) <> "".
Proof.
  intros Hret Hle w1 w' job. subst w1 w' job.
  pose proof (retrieve_Some_identified _ _ _ Hret) as Hid.
  rewrite confirm_identified by exact Hid.
  rewrite (retrieve_identified _ _ Hid) in *. cbn [fst snd] in *.
  cbv zeta. rewrite Hret, Hle. cbn [emit trace runAt data data_userId data_postId].
  rewrite <- !app_assoc. split; [reflexivity|]. split.
  - rewrite !scheduled_app. cbn. now rewrite ?app_nil_r.
  - unfold identified in Hid. apply andb_true_iff in Hid as [Hu Hp].
    destruct context as [[u|] [p|]]; cbn in Hu, Hp; try discriminate.
    cbn [userId postId str]. split; intros ->; discriminate.
Qed.

Lemma confirm_schedules_witness :
  let w := at_time 2000 world1 in
  let w1 := (retrieveDataAfterTimeConfirmation alice w).2 in
  let w' := (timeConfirmationForm_onSubmit alice w).2 in
  let job := mkScheduledJob "reminder" (new_Date (Num 7200000))
               (mkReminderJobData "t2_alice" "t3_postx" (Num 2000)) in
  trace w' =
    trace w1 ++ [RunJob job;
                 ShowToast ("Gotcha! I'll send you a message about this post at "
                            +:+ toUTCString (runAt job) +:+ "!")] /\
  scheduled (trace w') = scheduled (trace w) ++ [job] /\
  data_userId (data job) <> "" /\ data_postId (data job) <> "".
Proof.
  apply (confirm_schedules alice (at_time 2000 world1)
           (mkRemindMeFormData (Num 7200000))).
  - vm_compute. reflexivity.
  - vm_compute. reflexivity.
Defined.

(** Whatever the branch, a confirmation that comes with a post id shows
    exactly one toast and registers at most one job. *)
Theorem confirm_one_toast (context : Context) (w : World) :
  falsy (postId context) = false ->
  let w' := (timeConfirmationForm_onSubmit context w).2 in
  (exists text, toasts (trace w') = toasts (trace w) ++ [text]) /\
  (length (scheduled (trace w')) <= length (scheduled (trace w)) + 1)%nat.
Proof.
  intros Hp w'. subst w'. destruct (identified context) eqn:Hid.
  - rewrite confirm_identified by exact Hid. cbv zeta.
    destruct (decode _) as [data|].
    + destruct (Date_le _ _); cbn [emit trace];
        rewrite <- ?app_assoc, toasts_app, scheduled_app; cbn;
        (split; [eexists; reflexivity | rewrite length_app; cbn; lia]).
    + cbn [emit trace]. rewrite <- ?app_assoc, toasts_app, scheduled_app. cbn.
      split; [eexists; reflexivity | rewrite length_app; cbn; lia].
  - rewrite confirm_unidentified by exact Hid. rewrite Hp.
    cbn [emit trace]. rewrite toasts_app, scheduled_app. cbn.
    split; [eexists; reflexivity | rewrite app_nil_r; lia].
Qed.

Lemma confirm_one_toast_witness :
  let w' := (timeConfirmationForm_onSubmit alice world1).2 in
  (exists text, toasts (trace w') = toasts (trace world1) ++ [text]) /\
  (length (scheduled (trace w')) <= length (scheduled (trace world1)) + 1)%nat.
Proof.
  apply (confirm_one_toast alice world1). reflexivity.
Defined.

(** On an identified interaction the record is consumed whatever the
    outcome: after the handler, also when it refused a date in the past,
    the key has neither record nor expiry. *)
Theorem confirm_consumes_record (context : Context) (w : World) :
  identified context = true ->
  let w' := (timeConfirmationForm_onSubmit context w).2 in
  hashes (redis w') !! handoffKey context = None /\
  expiry (redis w') !! handoffKey context = None.
Proof.
  intros Hid w'. subst w'. now apply confirm_identified_deletes.
Qed.

Lemma confirm_consumes_record_witness :
  let w' := (timeConfirmationForm_onSubmit alice (at_time 7200001 world1)).2 in
  hashes (redis w') !! handoffKey alice = None /\
  expiry (redis w') !! handoffKey alice = None.
Proof.
  apply (confirm_consumes_record alice (at_time 7200001 world1)). reflexivity.
Defined.

(** A reminder is confirmed once: after a confirmation on an identified
    interaction, and any events that are not a stage 1 submission for the
    same key, a second confirmation finds nothing, shows the error toast
    and registers no job. *)
Theorem confirm_twice `{Chrono} (context : Context) (es : list (Z * Event))
    (t : Z) (w : World) :
  identified context = true ->
  Forall (fun te => ~ puts (handoffKey context) te.2) es ->
  let key := handoffKey context in
  let w2 := at_time t (run es (timeConfirmationForm_onSubmit context w).2) in
  let w3 := (timeConfirmationForm_onSubmit context w2).2 in
  trace w3 =
    trace w2 ++ [RedisHMGet key ["reminderTimestamp"]; RedisDel key;
                 ShowToast "An error occured while setting the reminder"] /\
  scheduled (trace w3) = scheduled (trace w2).
Proof.
  intros Hid Hes key w2 w3. subst w3 w2 key.
  rewrite confirm_identified_absent; [| exact Hid |].
  - split; [reflexivity|]. rewrite scheduled_app. cbn. now rewrite app_nil_r.
  - cbn [at_time redis]. rewrite run_absent; [reflexivity | exact Hes |].
    apply (confirm_identified_deletes context w Hid).
Qed.

Lemma confirm_twice_witness :
  let key := handoffKey alice in
  let w2 := at_time 3000
              (@run sampleChrono [(2500, PressMenu bob)]
                 (timeConfirmationForm_onSubmit alice (at_time 2000 world1)).2) in
  let w3 := (timeConfirmationForm_onSubmit alice w2).2 in
  trace w3 =
    trace w2 ++ [RedisHMGet key ["reminderTimestamp"]; RedisDel key;
                 ShowToast "An error occured while setting the reminder"] /\
  scheduled (trace w3) = scheduled (trace w2).
Proof.
  apply (@confirm_twice sampleChrono alice [(2500, PressMenu bob)] 3000
           (at_time 2000 world1)).
  - reflexivity.
  - repeat constructor. cbn. tauto.
Defined.

(** ** Stage 1 followed by the confirmation *)

(** What stage 1 leaves in the world when the text is recognised and the
    interaction is identified. *)
Lemma input_identified `{Chrono} (timeString : string) (context : Context)
    (w : World) (d : Date) :
  identified context = true ->
  parseDate timeString (mkDate (Num (now w))) = Some d ->
  (timeInputForm_onSubmit timeString context w).2 =
    let key := handoffKey context in
    let fv := {[ "reminderTimestamp" := ToString (getTime d) ]} in
    mkWorld
      (mkRedis
         (<[key := fv ∪ default ∅ (hashes (redis w) !! key)]> (hashes (redis w)))
         (<[key := 3600]> (expiry (redis w))))
      (users w) (posts w) (now w)
      (trace w ++ [RedisHSet key fv; RedisExpire key 3600;
                   ShowForm TimeConfirmationForm
                     (Some (mkRemindMeFormData (getTime d)))]).
Proof.
  intros Hid Hparse. rewrite input_run. cbn [snd]. rewrite Hparse.
  rewrite setData_identified by exact Hid.
  cbn [snd reminderTimestamp]. unfold emit.
  cbn [redis users posts now trace]. now rewrite <- app_assoc.
Qed.

(** The confirmation that follows a recognised stage 1 reads back the
    timestamp stage 1 was given. *)
Lemma retrieve_after_input `{Chrono} (timeString : string) (context : Context)
    (es : list (Z * Event)) (t2 : Z) (w : World) (d : Date) :
  identified context = true ->
  parseDate timeString (mkDate (Num (now w))) = Some d ->
  Forall (fun te => ~ touches (handoffKey context) te.2) es ->
  (retrieveDataAfterTimeConfirmation context
     (at_time t2 (run es (timeInputForm_onSubmit timeString context w).2))).1
    = Some (mkRemindMeFormData (getTime d)).
Proof.
  intros Hid Hparse Hes. rewrite retrieve_identified by exact Hid.
  cbn [fst at_time redis]. rewrite run_frame by exact Hes.
  rewrite (input_identified _ _ _ d) by assumption. cbn [redis hashes].
  rewrite lookup_insert_eq. cbn [mbind option_bind].
  rewrite lookup_after_put. apply decode_ToString.
Qed.

(** From the text to the job: when stage 1 recognises the text on an
    identified interaction and the confirmation comes at a time [t2] within
    the hour of expiry that stage 1 set on the record, at which the parsed
    date is not at or before the clock, with no event on the same key in
    between, one job is registered; it is due at the parsed date, it
    records [t2] as [initTimestamp], and the date the confirmation form
    displayed is the date of the job. *)
Theorem input_then_confirm `{Chrono} (timeString : string) (context : Context)
    (es : list (Z * Event)) (t2 : Z) (w : World) (d : Date) :
  identified context = true ->
  parseDate timeString (mkDate (Num (now w))) = Some d ->
  Forall (fun te => ~ touches (handoffKey context) te.2) es ->
  now w <= t2 < now w + 1 * 60 * 60 * 1000 ->
  Date_le (new_Date (getTime d)) (mkDate (Num t2)) = false ->
  let w1 := (timeInputForm_onSubmit timeString context w).2 in
  let w2 := at_time t2 (run es w1) in
  let w3 := (timeConfirmationForm_onSubmit context w2).2 in
  let job := mkScheduledJob "reminder" (new_Date (getTime d))
               (mkReminderJobData (str (userId context)) (str (postId context))
                  (Num t2)) in
  last (formsShown (trace w1))
    = Some (TimeConfirmationForm, Some (mkRemindMeFormData (getTime d))) /\
  scheduled (trace w3) = scheduled (trace w2) ++ [job] /\
  form_description (timeConfirmationForm_render (mkRemindMeFormData (getTime d)))
    = "I will remind you at " +:+ toUTCString (runAt job).
Proof.
  intros Hid Hparse Hes Hlive Hle w1 w2 w3 job. subst w3 w2 w1 job.
  split; [|split; [|reflexivity]].
  - rewrite (input_identified _ _ _ d) by assumption. cbn [trace].
    rewrite formsShown_app. cbn. apply last_snoc.
  - pose proof (retrieve_after_input timeString context es t2 w d Hid Hparse Hes)
      as Hret.
    set (w2 := at_time t2 _) in *.
    rewrite confirm_identified by exact Hid.
    rewrite retrieve_identified in Hret by exact Hid. cbn [fst] in Hret.
    cbv zeta. rewrite Hret. cbn [reminderTimestamp].
    replace (now w2) with t2 by reflexivity. rewrite Hle.
    cbn [emit trace]. rewrite <- !app_assoc, !scheduled_app. cbn.
    now rewrite ?app_nil_r.
Qed.

Lemma input_then_confirm_witness :
  let w1 := (@timeInputForm_onSubmit sampleChrono "in one hour" alice
               (at_time 1000 world0)).2 in
  let w2 := at_time 2000 (@run sampleChrono [(1500, SubmitTimeConfirmation bob)] w1) in
  let w3 := (timeConfirmationForm_onSubmit alice w2).2 in
  let job := mkScheduledJob "reminder" (new_Date (getTime (mkDate (Num 3601000))))
               (mkReminderJobData (str (userId alice)) (str (postId alice))
                  (Num 2000)) in
  last (formsShown (trace w1))
    = Some (TimeConfirmationForm,
            Some (mkRemindMeFormData (getTime (mkDate (Num 3601000))))) /\
  scheduled (trace w3) = scheduled (trace w2) ++ [job] /\
  form_description
    (timeConfirmationForm_render
       (mkRemindMeFormData (getTime (mkDate (Num 3601000)))))
    = "I will remind you at " +:+ toUTCString (runAt job).
Proof.
  apply (@input_then_confirm sampleChrono "in one hour" alice
           [(1500, SubmitTimeConfirmation bob)] 2000 (at_time 1000 world0)
           (mkDate (Num 3601000))).
  - reflexivity.
  - reflexivity.
  - repeat constructor. cbn. discriminate.
  - cbn. lia.
  - reflexivity.
Defined.

(** Stage 1 does not look at the identity of the interaction: when the text
    is recognised but the user id or the post id is missing, it stores
    nothing and shows no toast, but does show the confirmation form; the
    confirmation that follows, at whatever time, leaves the store as it was
    before stage 1 and registers no job. *)
Theorem input_without_identity `{Chrono} (timeString : string)
    (context : Context) (t2 : Z) (w : World) (d : Date) :
  identified context = false ->
  parseDate timeString (mkDate (Num (now w))) = Some d ->
  let w1 := (timeInputForm_onSubmit timeString context w).2 in
  let w2 := (timeConfirmationForm_onSubmit context (at_time t2 w1)).2 in
  w1 = emit (ShowForm TimeConfirmationForm
               (Some (mkRemindMeFormData (getTime d)))) w /\
  redis w2 = redis w /\
  scheduled (trace w2) = scheduled (trace w).
Proof.
  intros Hid Hparse w1 w2. subst w2 w1.
  assert (Hw1 : (timeInputForm_onSubmit timeString context w).2 =
                emit (ShowForm TimeConfirmationForm
                        (Some (mkRemindMeFormData (getTime d)))) w).
  { rewrite input_run. cbn [snd]. rewrite Hparse.
    now rewrite setData_unidentified. }
  rewrite Hw1. split; [reflexivity|].
  rewrite confirm_unidentified by exact Hid.
  destruct (falsy (postId context)); cbn [at_time emit redis trace];
    (split; [reflexivity|]); rewrite ?scheduled_app; cbn;
    now rewrite ?app_nil_r.
Qed.

Lemma input_without_identity_witness :
  let w1 := (@timeInputForm_onSubmit sampleChrono "in one hour" anonymous
               (at_time 1000 world1)).2 in
  let w2 := (timeConfirmationForm_onSubmit anonymous (at_time 2000 w1)).2 in
  w1 = emit (ShowForm TimeConfirmationForm
               (Some (mkRemindMeFormData (getTime (mkDate (Num 3601000))))))
         (at_time 1000 world1) /\
  redis w2 = redis (at_time 1000 world1) /\
  scheduled (trace w2) = scheduled (trace (at_time 1000 world1)).
Proof.
  apply (@input_without_identity sampleChrono "in one hour" anonymous 2000
           (at_time 1000 world1) (mkDate (Num 3601000))); reflexivity.
Defined.

(** ** The job body *)


(** ** What every history of the application keeps *)

Lemma singleton_union_singleton (s s0 : string) :
  ({[ "reminderTimestamp" := s ]} : gmap string string)
    ∪ {[ "reminderTimestamp" := s0 ]} = {[ "reminderTimestamp" := s ]}.
Proof.
  apply map_eq. intros i. rewrite lookup_union.
  destruct (decide (i = "reminderTimestamp")) as [->|Hne].
  - now rewrite !lookup_singleton_eq.
  - now rewrite !lookup_singleton_ne.
Qed.

Lemma ToString_nonempty (n : number) : ToString n <> "".
Proof.
  intros Heq. pose proof (ToString_truthy n) as Ht. rewrite Heq in Ht.
  discriminate.
Qed.

Lemma store_tidy_put (r : Redis) (key : string) (n : number) :
  store_tidy r ->
  store_tidy
    (mkRedis
       (<[key := {[ "reminderTimestamp" := ToString n ]}
                   ∪ default ∅ (hashes r !! key)]> (hashes r))
       (<[key := 3600]> (expiry r))).
Proof.
  intros Ht key'. cbn [hashes expiry].
  destruct (decide (key = key')) as [<-|Hne].
  - rewrite !lookup_insert_eq. split; [|reflexivity].
    exists (ToString n). split; [|apply ToString_nonempty].
    specialize (Ht key). destruct (hashes r !! key) as [h|]; cbn [default].
    + destruct Ht as [(s0 & -> & _) _]. apply singleton_union_singleton.
    + apply (right_id_L ∅ (∪)).
  - rewrite !lookup_insert_ne by exact Hne. apply Ht.
Qed.

Lemma store_tidy_delete (r : Redis) (key : string) :
  store_tidy r ->
  store_tidy (mkRedis (delete key (hashes r)) (delete key (expiry r))).
Proof.
  intros Ht key'. cbn [hashes expiry].
  destruct (decide (key = key')) as [<-|Hne].
  - now rewrite !lookup_delete_eq.
  - rewrite !lookup_delete_ne by exact Hne. apply Ht.
Qed.

Lemma handle_tidy `{Chrono} (e : Event) (w : World) :
  store_tidy (redis w) -> store_tidy (redis (handle e w).2).
Proof.
  intros Ht. destruct e as [ctx | text ctx | ctx | d]; cbn [handle].
  - exact Ht.
  - rewrite input_run. cbn [snd].
    destruct (parseDate _ _) as [pd|]; [|exact Ht].
    destruct (identified ctx) eqn:Hid.
    + rewrite setData_identified by exact Hid. cbn [snd emit redis].
      now apply store_tidy_put.
    + now rewrite setData_unidentified.
  - destruct (identified ctx) eqn:Hid.
    + rewrite confirm_identified by exact Hid. cbv zeta.
      destruct (decode _) as [data|]; [destruct (Date_le _ _)|];
        cbn [emit redis]; now apply store_tidy_delete.
    + rewrite confirm_unidentified by exact Hid.
      now destruct (falsy (postId ctx)).
  - rewrite onRun_run. cbn [snd]. cbv zeta.
    now destruct (users w !! data_userId d), (posts w !! data_postId d).
Qed.

(** Over every history that starts with an empty store, every record in the
    store is the single field [reminderTimestamp] with a text that is not
    empty, it has an expiry of one hour (no record stays in Redis for ever),
    and no expiry is kept for a key without a record. *)
Theorem store_stays_tidy `{Chrono} (es : list (Z * Event)) (w0 : World) :
  hashes (redis w0) = ∅ -> expiry (redis w0) = ∅ ->
  store_tidy (redis (run es w0)).
Proof.
  intros Hh He.
  assert (Ht : store_tidy (redis w0)).
  { intros key. now rewrite Hh, He, !lookup_empty. }
  clear Hh He. revert w0 Ht.
  induction es as [|[t e] es IH]; intros w Ht; [exact Ht|].
  cbn [run]. apply IH. now apply handle_tidy.
Qed.

Lemma store_stays_tidy_witness :
  store_tidy
    (redis (@run sampleChrono
              [(1000, SubmitTimeInput "in one hour" alice);
               (1500, SubmitTimeInput "yesterday" bob);
               (2000, SubmitTimeInput "in one hour" alice);
               (2500, SubmitTimeConfirmation bob)] world0)).
Proof.
  apply (@store_stays_tidy sampleChrono); reflexivity.
Defined.

Lemma scheduled_length_snoc (tr tr' : list Effect) :
  length (scheduled (tr ++ tr')) =
    (length (scheduled tr) + length (scheduled tr'))%nat.
Proof. now rewrite scheduled_app, length_app. Qed.

(** One event adds to the jobs and the records together at most one, and
    only when it is a stage 1 submission: a confirmation that registers a
    job has taken a record away. *)
Lemma handle_jobs_and_records `{Chrono} (e : Event) (w : World) :
  (length (scheduled (trace (handle e w).2)) + size (hashes (redis (handle e w).2))
   <= length (scheduled (trace w)) + size (hashes (redis w))
      + (if isSubmitTimeInput e then 1 else 0))%nat.
Proof.
  destruct e as [ctx | text ctx | ctx | d]; cbn [handle isSubmitTimeInput].
  - cbn. rewrite scheduled_length_snoc. cbn. lia.
  - rewrite input_run. cbn [snd].
    destruct (parseDate _ _) as [pd|].
    + destruct (identified ctx) eqn:Hid.
      * rewrite setData_identified by exact Hid.
        cbn [snd emit trace redis hashes].
        rewrite !scheduled_length_snoc, map_size_insert. cbn.
        destruct (hashes (redis w) !! handoffKey ctx); cbn; lia.
      * rewrite setData_unidentified by exact Hid.
        cbn [snd emit trace redis]. rewrite scheduled_length_snoc. cbn. lia.
    + cbn [emit trace redis]. rewrite scheduled_length_snoc. cbn. lia.
  - destruct (identified ctx) eqn:Hid.
    + rewrite confirm_identified by exact Hid. cbv zeta.
      unfold decode.
      destruct (hashes (redis w) !! handoffKey ctx) as [h|] eqn:Hk.
      * assert (Hsize : size (hashes (redis w)) <> 0%nat)
          by (apply (map_size_ne_0_lookup_2 _ (handoffKey ctx)); eauto).
        destruct (falsy _); [|destruct (Date_le _ _)];
          cbn [emit trace redis hashes];
          rewrite !scheduled_length_snoc, map_size_delete, Hk; cbn; lia.
      * cbn [mbind option_bind falsy truthy negb emit trace redis hashes].
        rewrite !scheduled_length_snoc, map_size_delete, Hk. cbn. lia.
    + rewrite confirm_unidentified by exact Hid.
      destruct (falsy (postId ctx)); cbn [emit trace redis];
        rewrite ?scheduled_length_snoc; cbn; lia.
  - rewrite onRun_run. cbn [snd]. cbv zeta.
    destruct (users w !! data_userId d), (posts w !! data_postId d);
      cbn [emit trace redis]; rewrite !scheduled_length_snoc; cbn; lia.
Qed.

(** When the handlers run one after the other, each to its end before the
    next event is delivered (which is what [run] does), each stage 1
    submission can be confirmed into at most one job: the jobs registered
    plus the records still in the store grow by no more than the number of
    stage 1 submissions.  Two confirmations that overlap are another
    matter: see the last section. *)
Theorem jobs_bounded_by_submissions `{Chrono} (es : list (Z * Event)) (w : World) :
  (length (scheduled (trace (run es w))) + size (hashes (redis (run es w)))
   <= length (scheduled (trace w)) + size (hashes (redis w))
      + countEvents isSubmitTimeInput es)%nat.
Proof.
  revert w. induction es as [|[t e] es IH]; intros w.
  - cbn. lia.
  - cbn [run]. specialize (IH (handle e (at_time t w)).2).
    pose proof (handle_jobs_and_records e (at_time t w)) as He.
    cbn [at_time trace redis] in He.
    unfold countEvents in *. cbn [List.filter snd].
    destruct (isSubmitTimeInput e); cbn [length]; lia.
Qed.

(** One event adds at most one message, and only when it is a firing. *)
Lemma handle_messages `{Chrono} (e : Event) (w : World) :
  (length (sent (trace (handle e w).2))
   <= length (sent (trace w)) + (if isFireReminder e then 1 else 0))%nat.
Proof.
  destruct e as [ctx | text ctx | ctx | d]; cbn [handle isFireReminder].
  - cbn. rewrite sent_app, length_app. cbn. lia.
  - rewrite input_run. cbn [snd].
    destruct (parseDate _ _) as [pd|].
    + destruct (identified ctx) eqn:Hid.
      * rewrite setData_identified by exact Hid. cbn [snd emit trace].
        rewrite !sent_app, !length_app. cbn. lia.
      * rewrite setData_unidentified by exact Hid. cbn [snd emit trace].
        rewrite sent_app, length_app. cbn. lia.
    + cbn [emit trace]. rewrite sent_app, length_app. cbn. lia.
  - destruct (identified ctx) eqn:Hid.
    + rewrite confirm_identified by exact Hid. cbv zeta.
      destruct (decode _) as [data|]; [destruct (Date_le _ _)|];
        cbn [emit trace]; rewrite !sent_app, !length_app; cbn; lia.
    + rewrite confirm_unidentified by exact Hid.
      destruct (falsy (postId ctx)); cbn [emit trace];
        rewrite ?sent_app, ?length_app; cbn; lia.
  - rewrite onRun_run. cbn [snd]. cbv zeta.
    destruct (users w !! data_userId d), (posts w !! data_postId d);
      cbn [emit trace]; rewrite !sent_app, !length_app; cbn; lia.
Qed.

(** Private messages come from job firings only, at most one per firing:
    the menu and the two forms never send a message. *)
Theorem messages_bounded_by_firings `{Chrono} (es : list (Z * Event)) (w : World) :
  (length (sent (trace (run es w)))
   <= length (sent (trace w)) + countEvents isFireReminder es)%nat.
Proof.
  revert w. induction es as [|[t e] es IH]; intros w.
  - cbn. lia.
  - cbn [run]. specialize (IH (handle e (at_time t w)).2).
    pose proof (handle_messages e (at_time t w)) as He.
    cbn [at_time trace] in He.
    unfold countEvents in *. cbn [List.filter snd].
    destruct (isFireReminder e); cbn [length]; lia.
Qed.

(** ** Interactions do not disturb one another *)

(** The handoff record of an interaction is not changed by any history
    made of events of other interactions (each with both identifiers and a
    user id without a colon) and of job firings. *)
Theorem other_interactions_do_not_interfere `{Chrono} (c : Context)
    (es : list (Z * Event)) (w : World) :
  identified c = true -> noColon (str (userId c)) = true ->
  Forall (fun te => fromAnother c te.2) es ->
  hashes (redis (run es w)) !! handoffKey c = hashes (redis w) !! handoffKey c.
Proof.
  intros Hid Hc Hes. apply run_frame.
  eapply Forall_impl; [exact Hes|]. intros [t e] Hfrom Htouch. cbn in *.
  unfold fromAnother in Hfrom.
  destruct e as [c' | text c' | c' | d]; cbn in Hfrom, Htouch;
    try exact Htouch; destruct Hfrom as (Hid' & Hc' & Hne);
    apply Hne; now apply handoffKey_eq.
Qed.

Lemma other_interactions_do_not_interfere_witness :
  hashes (redis (@run sampleChrono
                   [(10, SubmitTimeInput "yesterday" bob);
                    (20, SubmitTimeConfirmation bob);
                    (30, FireReminder
                           (mkReminderJobData "t2_bob" "t3_postx" (Num 20)))]
                   world1)) !! handoffKey alice
    = hashes (redis world1) !! handoffKey alice.
Proof.
  apply (@other_interactions_do_not_interfere sampleChrono alice);
    [reflexivity | reflexivity |].
  repeat constructor; discriminate.
Defined.

(** ** Stage 1 always answers *)

(** Stage 1 answers every submission with exactly one thing on the screen:
    the toast when the text is not recognised, the confirmation form when
    it is. *)
Theorem input_one_response `{Chrono} (timeString : string) (context : Context)
    (w : World) :
  let w' := (timeInputForm_onSubmit timeString context w).2 in
  (toasts (trace w') = toasts (trace w) ++ ["I couldn't quite get that!"] /\
   formsShown (trace w') = formsShown (trace w) /\
   parseDate timeString (mkDate (Num (now w))) = None) \/
  (exists d,
     toasts (trace w') = toasts (trace w) /\
     formsShown (trace w') =
       formsShown (trace w)
       ++ [(TimeConfirmationForm, Some (mkRemindMeFormData (getTime d)))] /\
     parseDate timeString (mkDate (Num (now w))) = Some d).
Proof.
  intros w'. subst w'. rewrite input_run. cbn [snd].
  destruct (parseDate _ _) as [d|].
  - right. exists d.
    destruct (identified context) eqn:Hid.
    + rewrite setData_identified by exact Hid. cbn [snd emit trace].
      rewrite !toasts_app, !formsShown_app. cbn. now rewrite !app_nil_r.
    + rewrite setData_unidentified by exact Hid. cbn [snd emit trace].
      rewrite !toasts_app, !formsShown_app. cbn. now rewrite !app_nil_r.
  - left. cbn [emit trace]. rewrite toasts_app, formsShown_app. cbn.
    now rewrite app_nil_r.
Qed.

(** ** From the confirmation to the message *)

(** The job a confirmation registers is the one whose firing reaches the
    confirming user: when the ids of the interaction resolve at fire time,
    firing the job's data sends one message to that user, about the title
    the post has then, stating the date of the confirmation. *)
Theorem confirmed_reminder_is_delivered (context : Context) (w wf : World)
    (d : RemindMeFormData) (user : User) (post : Post) :
  (retrieveDataAfterTimeConfirmation context w).1 = Some d ->
  Date_le (new_Date (reminderTimestamp d)) (mkDate (Num (now w))) = false ->
  users wf !! str (userId context) = Some user ->
  posts wf !! str (postId context) = Some post ->
  exists job subject text,
    last (scheduled (trace (timeConfirmationForm_onSubmit context w).2))
      = Some job /\
    sent (trace (reminder_onRun (data job) wf).2)
      = sent (trace wf) ++ [(username user, subject, text)] /\
    includes text (title post) /\
    includes text (toUTCString (new_Date (Num (now w)))).
Proof.
  intros Hret Hle Hu Hp.
  pose proof (retrieve_Some_identified _ _ _ Hret) as Hid.
  eexists _, _, _. split; [|split; [|split]].
  - rewrite confirm_identified by exact Hid.
    rewrite (retrieve_identified _ _ Hid) in Hret. cbn [fst] in Hret.
    cbv zeta. rewrite Hret, Hle. cbn [emit trace].
    rewrite <- !app_assoc, scheduled_app. cbn. apply last_snoc.
  - rewrite onRun_run. cbn [snd data data_userId data_postId initTimestamp].
    cbv zeta. rewrite Hu, Hp. cbn [emit trace].
    rewrite <- !app_assoc, sent_app. cbn. reflexivity.
  - unfold includes. eexists _, _. reflexivity.
  - unfold includes.
    exists ("Hey! You asked me to remind you about [" +:+ title post +:+
            "](" +:+ permalink post +:+ "). You set this reminder on "), "!".
    now rewrite !string_app_assoc.
Qed.

Lemma confirmed_reminder_is_delivered_witness :
  exists job subject text,
    last (scheduled
            (trace (timeConfirmationForm_onSubmit alice (at_time 2000 world1)).2))
      = Some job /\
    sent (trace (reminder_onRun (data job) (at_time 7200000 world0)).2)
      = sent (trace (at_time 7200000 world0)) ++ [(username (mkUser "alice"),
                                                   subject, text)] /\
    includes text (title (mkPost "Post X" "/r/test/comments/postx")) /\
    includes text (toUTCString (new_Date (Num (now (at_time 2000 world1))))).
Proof.
  apply (confirmed_reminder_is_delivered alice (at_time 2000 world1)
           (at_time 7200000 world0) (mkRemindMeFormData (Num 7200000))
           (mkUser "alice") (mkPost "Post X" "/r/test/comments/postx")).
  - vm_compute. reflexivity.
  - vm_compute. reflexivity.
  - vm_compute. reflexivity.
  - vm_compute. reflexivity.
Defined.

(** ** Two confirmations that overlap *)

(** The confirmation handler is [confirm_begin] followed, unless it has
    returned, by [confirm_end] on the value read: the split is at the await
    between [hMGet] and [del]. *)
Lemma confirm_split (context : Context) (w : World) :
  timeConfirmationForm_onSubmit context w =
    (r ← confirm_begin context;
     match r with
     | None => mret tt
     | Some stored => confirm_end context stored
     end) w.
Proof.
  rewrite confirm_run, bind_run.
  destruct context as [u p]. unfold confirm_begin. cbn [userId postId].
  destruct (falsy p) eqn:Hp; [reflexivity|].
  destruct (falsy u) eqn:Hu; [reflexivity|].
  rewrite retrieve_identified
    by (unfold identified, falsy in *; cbn [userId postId];
        destruct (truthy u), (truthy p); done).
  cbv zeta. rewrite bind_run.
  unfold hMGet, confirm_end, handoffKey. cbn [userId postId map head].
  cbn [mret Task_ret]. rewrite bind_run. unfold del, set_redis.
  cbn [emit redis users posts now trace hashes expiry].
  rewrite <- app_assoc. cbn [app]. unfold decode.
  set (stored := hashes (redis w) !! _ ≫= _).
  change (Some stored ≫= id) with stored.
  destruct (falsy stored); [reflexivity|].
  rewrite bind_run. cbn [Date_now now getTime reminderTimestamp].
  destruct (Date_le _ _); [reflexivity|]. now rewrite bind_run.
Qed.

Lemma confirm_begin_identified (context : Context) (w : World) :
  identified context = true ->
  confirm_begin context w =
    (Some (hashes (redis w) !! handoffKey context
           ≫= fun h => h !! "reminderTimestamp"),
     emit (RedisHMGet (handoffKey context) ["reminderTimestamp"]) w).
Proof.
  intros Hid. destruct (identified_inv _ Hid) as [Hu Hp].
  destruct context as [u p]. cbn [userId postId] in *.
  unfold confirm_begin. rewrite Hp, Hu. rewrite bind_run. reflexivity.
Qed.

Lemma confirm_end_run (context : Context) (stored : option string) (w : World) :
  (confirm_end context stored w).2 =
    let key := handoffKey context in
    let w1 :=
      mkWorld
        (mkRedis (delete key (hashes (redis w))) (delete key (expiry (redis w))))
        (users w) (posts w) (now w) (trace w ++ [RedisDel key]) in
    match decode stored with
    | None => emit (ShowToast "An error occured while setting the reminder") w1
    | Some data =>
        let reminderDate := new_Date (reminderTimestamp data) in
        if Date_le reminderDate (mkDate (Num (now w))) then
          emit (ShowToast "I can't remind you in the past!") w1
        else
          emit (ShowToast ("Gotcha! I'll send you a message about this post at "
                           +:+ toUTCString reminderDate +:+ "!"))
            (emit (RunJob (mkScheduledJob REMINDER_JOB_NAME reminderDate
                             (mkReminderJobData (str (userId context))
                                (str (postId context)) (Num (now w))))) w1)
    end.
Proof.
  destruct context as [u p]. unfold confirm_end, handoffKey, decode.
  cbn [userId postId]. rewrite bind_run. unfold del, set_redis.
  cbn [emit redis users posts now trace hashes expiry]. cbv zeta.
  destruct (falsy stored); [reflexivity|].
  rewrite bind_run. cbn [Date_now now getTime reminderTimestamp].
  destruct (Date_le _ _); [reflexivity|]. now rewrite bind_run.
Qed.

(** The read-then-delete of the handoff is not atomic.  When two
    confirmations of the same interaction overlap, the second reading the
    record before the first has deleted it, both find the record and both
    register a job: one stage 1 submission gives two jobs. *)
Theorem overlapping_confirmations_both_schedule (context : Context) (w : World)
    (d : RemindMeFormData) :
  (retrieveDataAfterTimeConfirmation context w).1 = Some d ->
  Date_le (new_Date (reminderTimestamp d)) (mkDate (Num (now w))) = false ->
  let b1 := confirm_begin context w in
  let b2 := confirm_begin context b1.2 in
  let w3 := (confirm_end context (default None b1.1) b2.2).2 in
  let w4 := (confirm_end context (default None b2.1) w3).2 in
  let job := mkScheduledJob "reminder" (new_Date (reminderTimestamp d))
               (mkReminderJobData (str (userId context)) (str (postId context))
                  (Num (now w))) in
  is_Some b1.1 /\ is_Some b2.1 /\
  scheduled (trace w4) = scheduled (trace w) ++ [job; job].
Proof.
  intros Hret Hle b1 b2 w3 w4 job. subst w4 w3 b2 b1 job.
  pose proof (retrieve_Some_identified _ _ _ Hret) as Hid.
  rewrite (retrieve_identified _ _ Hid) in Hret. cbn [fst] in Hret.
  rewrite !confirm_begin_identified by exact Hid.
  cbn [fst snd emit redis default].
  split; [eauto|]. split; [eauto|].
  rewrite !confirm_end_run. cbv zeta.
  cbn [emit redis hashes expiry users posts now trace]. unfold id.
  rewrite Hret. cbn [now]. rewrite Hle.
  cbn [emit redis hashes expiry users posts now trace]. rewrite Hle.
  cbn [emit trace]. rewrite <- !app_assoc, scheduled_app. cbn. reflexivity.
Qed.

Lemma overlapping_confirmations_both_schedule_witness :
  let w := at_time 2000 world1 in
  let b1 := confirm_begin alice w in
  let b2 := confirm_begin alice b1.2 in
  let w3 := (confirm_end alice (default None b1.1) b2.2).2 in
  let w4 := (confirm_end alice (default None b2.1) w3).2 in
  let job := mkScheduledJob "reminder" (new_Date (Num 7200000))
               (mkReminderJobData (str (userId alice)) (str (postId alice))
                  (Num (now w))) in
  is_Some b1.1 /\ is_Some b2.1 /\
  scheduled (trace w4) = scheduled (trace w) ++ [job; job].
Proof.
  apply (overlapping_confirmations_both_schedule alice (at_time 2000 world1)
           (mkRemindMeFormData (Num 7200000))).
  - vm_compute. reflexivity.
  - vm_compute. reflexivity.
Defined.
